(** * The alert acknowledgment relay (app.py)

    A shallow embedding of the Flask application of app.py: the helper
    [set_airflow_variable] and the four handlers that talk to the Airflow
    variable store, the health check, and the properties of the relay that
    its specification states.

    Python values are the values a JSON document decodes to.  The two
    things outside the program, the HTTP client [requests] with the server
    behind it and the clock, are the methods of a class; handlers are
    computations in a state and exception monad whose state records the
    requests sent and the lines logged. *)

From Stdlib Require Import ZArith Strings.Ascii Floats.SpecFloat.
From stdpp Require Import base option list strings pretty gmap.

#[local] Set Warnings "-register-all".
Local Open Scope string_scope.
Local Open Scope list_scope.
Local Open Scope Z_scope.

(** ** Python values *)

(** What [json.loads] produces: None, bool, int, float, str, list, dict.
    A dict keeps its items in insertion order, its keys distinct. *)
Inductive json : Type :=
| JNull
| JBool (b : bool)
| JInt (z : Z)
| JFloat (f : spec_float)
| JStr (s : string)
| JArr (l : list json)
| JObj (items : list (string * json)).

(** [type(v).__name__], as it shows in the message of an AttributeError. *)
Definition py_type_name (v : json) : string :=
  match v with
  | JNull => "NoneType"
  | JBool _ => "bool"
  | JInt _ => "int"
  | JFloat _ => "float"
  | JStr _ => "str"
  | JArr _ => "list"
  | JObj _ => "dict"
  end.

(** [bool(v)]: the truth value that [not v] negates. *)
Definition py_truthy (v : json) : bool :=
  match v with
  | JNull => false
  | JBool b => b
  | JInt z => negb (z =? 0)
  | JFloat f => match f with S754_zero _ => false | _ => true end
  | JStr s => negb (String.eqb s EmptyString)
  | JArr l => match l with [] => false | _ => true end
  | JObj items => match items with [] => false | _ => true end
  end.

(** The first item stored under [key], as [d[key]] finds it. *)
Fixpoint dict_lookup (key : string) (items : list (string * json)) : option json :=
  match items with
  | [] => None
  | (k, v) :: rest => if String.eqb k key then Some v else dict_lookup key rest
  end.

(** The keys of a dict, in order; the empty list for any other value. *)
Definition dict_keys (v : json) : list string :=
  match v with
  | JObj items => map fst items
  | _ => []
  end.

(** [repr] of a float and of a str are Python's own algorithms (shortest
    round-trip digits, quote selection and escapes); the program never
    inspects their result, so they are left to the interpreter. *)
Class Builtins := {
  float_repr : spec_float → string;
  str_repr : string → string
}.

Definition join (sep : string) (parts : list string) : string :=
  match parts with
  | [] => EmptyString
  | p :: ps => fold_left (λ acc q, acc +:+ sep +:+ q) ps p
  end.

Section Formatting.
Context `{Builtins}.

(** [repr(v)] *)
Fixpoint py_repr (v : json) : string :=
  match v with
  | JNull => "None"
  | JBool true => "True"
  | JBool false => "False"
  | JInt z => pretty z
  | JFloat f => float_repr f
  | JStr s => str_repr s
  | JArr l => "[" +:+ join ", " (map py_repr l) +:+ "]"
  | JObj items =>
      "{" +:+ join ", " (map (λ kv, str_repr (fst kv) +:+ ": " +:+ py_repr (snd kv)) items) +:+ "}"
  end.

(** [str(v)], which is what a replacement field of an f-string inserts:
    the text itself for a str, [repr] for every other type here. *)
Definition py_str (v : json) : string :=
  match v with
  | JStr s => s
  | _ => py_repr v
  end.
End Formatting.

(** ASCII lower-casing of one character. *)
Definition ascii_lower (c : Ascii.ascii) : Ascii.ascii :=
  let n := Ascii.N_of_ascii c in
  if (65 <=? n)%N && (n <=? 90)%N then Ascii.ascii_of_N (n + 32) else c.

(** [s.lower()] on the ASCII letters.  A str is held as its UTF-8 text; no
    character outside A-Z lower-cases to one of the letters t, r, u, e, so
    the comparison of the result with ["true"] is Python's. *)
Fixpoint str_lower (s : string) : string :=
  match s with
  | EmptyString => EmptyString
  | String c rest => String (ascii_lower c) (str_lower rest)
  end.

(** ** Exceptions *)

(** A [requests.Response]: status line, final URL and the outcome of
    decoding the body as JSON. *)
Inductive decoded : Type :=
| Malformed (msg : string)
| Decoded (j : json).

Record Response : Type := {
  status_code : Z;
  reason : string;
  url : string;
  content : decoded
}.

(** The exceptions that can arise in the handlers; all of them derive from
    [Exception]. *)
Inductive exn : Type :=
| RequestException (msg : string)
| HTTPError (msg : string) (response : Response)
| JSONDecodeError (msg : string)
| AttributeError (msg : string)
| HTTPException (code : Z) (name description : string).

(** [str(e)] *)
Definition exn_str (e : exn) : string :=
  match e with
  | RequestException msg => msg
  | HTTPError msg _ => msg
  | JSONDecodeError msg => msg
  | AttributeError msg => msg
  | HTTPException code name description => pretty code +:+ " " +:+ name +:+ ": " +:+ description
  end.

Definition no_attribute (v : json) (attr : string) : exn :=
  AttributeError ("'" +:+ py_type_name v +:+ "' object has no attribute '" +:+ attr +:+ "'").

(** [v.get(key, default)]: defined on a dict only. *)
Definition py_get (v : json) (key : string) (default : json) : exn + json :=
  match v with
  | JObj items => inr (from_option id default (dict_lookup key items))
  | _ => inl (no_attribute v "get")
  end.

(** [v.lower()]: defined on a str only. *)
Definition py_lower (v : json) : exn + string :=
  match v with
  | JStr s => inr (str_lower s)
  | _ => inl (no_attribute v "lower")
  end.

(** ** The outside world *)

Inductive Method : Type := GET | PATCH | POST.

(** [HTTPBasicAuth(username, password)] *)
Record HTTPBasicAuth : Type := {
  username : string;
  password : string
}.

(** What a call [requests.get/patch/post(url, json=, auth=, headers=)]
    puts on the wire. *)
Record HttpRequest : Type := {
  method : Method;
  target : string;
  payload : option json;
  auth : HTTPBasicAuth;
  headers : list (string * string)
}.

(** The server behind [requests] and the clock behind [datetime.now()].
    [send] answers a request in a world and gives the next world; [inl msg]
    is a failure below HTTP (refused connection, timeout), which [requests]
    raises as a RequestException.  [clock] is the local time, already
    formatted with ["%Y-%m-%d %H:%M:%S"]. *)
Class Upstream (W : Type) := {
  send : HttpRequest → W → (string + Response) * W;
  clock : W → string
}.

(** The process state a handler runs in: the world, the requests sent so
    far (oldest first) and the records given to [logger]. *)
Record state (W : Type) : Type := {
  world : W;
  sent : list HttpRequest;
  logged : list (string * string)
}.
Arguments world {W} _.
Arguments sent {W} _.
Arguments logged {W} _.

(** ** Computations that change the state and may raise *)

Definition Py (W A : Type) : Type := state W → (exn + A) * state W.

#[export] Instance py_ret {W} : MRet (Py W) :=
  λ A a st, (inr a, st).

#[export] Instance py_bind {W} : MBind (Py W) :=
  λ A B f m st,
    match m st with
    | (inl e, st') => (inl e, st')
    | (inr a, st') => f a st'
    end.

(** A pure step that may raise. *)
Definition lift {W A} (r : exn + A) : Py W A :=
  λ st, (r, st).

(** [try: body except Exception as e: handler(e)] *)
Definition try_except {W A} (body : Py W A) (handler : exn → Py W A) : Py W A :=
  λ st,
    match body st with
    | (inl e, st') => handler e st'
    | (inr a, st') => (inr a, st')
    end.

(** The state after [logger] took a record. *)
Definition with_log {W} (level msg : string) (st : state W) : state W :=
  {| world := world st; sent := sent st; logged := logged st ++ [(level, msg)] |}.

Definition logger_info {W} (msg : string) : Py W unit :=
  λ st, (inr (), with_log "INFO" msg st).

Definition logger_error {W} (msg : string) : Py W unit :=
  λ st, (inr (), with_log "ERROR" msg st).

(** The state after request [rq] went out and the world became [w']. *)
Definition after_call {W} (rq : HttpRequest) (w' : W) (st : state W) : state W :=
  {| world := w'; sent := sent st ++ [rq]; logged := logged st |}.

Section Requests.
Context {W : Type} `{Upstream W}.

(** One HTTP exchange: the request is recorded, the world moves on. *)
Definition requests_request (rq : HttpRequest) : Py W Response :=
  λ st,
    let (out, w') := send rq (world st) in
    match out with
    | inl msg => (inl (RequestException msg), after_call rq w' st)
    | inr r => (inr r, after_call rq w' st)
    end.

Definition requests_patch (u : string) (j : json) (a : HTTPBasicAuth)
    (h : list (string * string)) : Py W Response :=
  requests_request {| method := PATCH; target := u; payload := Some j; auth := a; headers := h |}.

Definition requests_post (u : string) (j : json) (a : HTTPBasicAuth)
    (h : list (string * string)) : Py W Response :=
  requests_request {| method := POST; target := u; payload := Some j; auth := a; headers := h |}.

Definition requests_get (u : string) (a : HTTPBasicAuth) : Py W Response :=
  requests_request {| method := GET; target := u; payload := None; auth := a; headers := [] |}.

(** [datetime.now().strftime("%Y-%m-%d %H:%M:%S")] *)
Definition datetime_now : Py W string :=
  λ st, (inr (clock (world st)), st).
End Requests.

(** [response.ok]: the status is below 400 or from 600 on. *)
Definition ok (r : Response) : bool :=
  negb ((400 <=? status_code r) && (status_code r <? 600)).

(** [response.raise_for_status()] *)
Definition raise_for_status (r : Response) : exn + unit :=
  if (400 <=? status_code r) && (status_code r <? 500) then
    inl (HTTPError (pretty (status_code r) +:+ " Client Error: " +:+ reason r
                    +:+ " for url: " +:+ url r) r)
  else if (500 <=? status_code r) && (status_code r <? 600) then
    inl (HTTPError (pretty (status_code r) +:+ " Server Error: " +:+ reason r
                    +:+ " for url: " +:+ url r) r)
  else inr ().

(** [response.json()] *)
Definition response_json (r : Response) : exn + json :=
  match content r with
  | Malformed msg => inl (JSONDecodeError msg)
  | Decoded j => inr j
  end.

(** ** Configuration *)

Record Config : Type := {
  AIRFLOW_BASE_URL : string;
  AIRFLOW_USERNAME : string;
  AIRFLOW_PASSWORD : string
}.

(** [os.getenv(name, default)] over the environment as a list of pairs. *)
Fixpoint getenv (env : list (string * string)) (name default : string) : string :=
  match env with
  | [] => default
  | (k, v) :: rest => if String.eqb k name then v else getenv rest name default
  end.

Definition load_config (env : list (string * string)) : Config :=
  {| AIRFLOW_BASE_URL := getenv env "AIRFLOW_BASE_URL" "http://localhost:8080/api/v1";
     AIRFLOW_USERNAME := getenv env "AIRFLOW_USERNAME" "airflow";
     AIRFLOW_PASSWORD := getenv env "AIRFLOW_PASSWORD" "airflow" |}.

(** ** Flask requests and responses *)

(** The part of [flask.request] the handlers read: the outcome of
    [request.get_json()] and the query string as [request.args]. *)
Record FlaskRequest : Type := {
  get_json : exn + json;
  args : list (string * string)
}.

(** [request.args.get(key, default)]: the first value given for [key]. *)
Fixpoint args_get (a : list (string * string)) (key : string) (default : json) : json :=
  match a with
  | [] => default
  | (k, v) :: rest => if String.eqb k key then JStr v else args_get rest key default
  end.

Inductive Template : Type := ACK_PAGE_TEMPLATE.

(** A response body: a JSON document, a template with the context it is
    rendered in, or the literal page that [index] returns. *)
Inductive Body : Type :=
| jsonify (j : json)
| render_template_string (t : Template) (context : list (string * json))
| index_page.

Record FlaskResponse : Type := {
  body : Body;
  status : Z
}.

(** ** The application *)

(** The URL map of [app]: the rules of the [@app.route] decorators, a
    path parameter already extracted. *)
Inductive Route : Type :=
| acknowledge_post_rule
| acknowledge_get_rule
| get_acknowledgment_status_rule (dag_id : string)
| reset_acknowledgment_rule (dag_id : string)
| health_check_rule
| index_rule.

Section App.
Context `{Builtins} {W : Type} `{Upstream W}.
Variable cfg : Config.

Definition set_airflow_variable (key value : string) : Py W json :=
  let url := AIRFLOW_BASE_URL cfg +:+ "/variables/" +:+ key in
  let data := JObj [("value", JStr value)] in
  let auth := {| username := AIRFLOW_USERNAME cfg; password := AIRFLOW_PASSWORD cfg |} in
  let headers := [("Content-Type", "application/json")] in
  response ← requests_patch url data auth headers;
  response ←
    (if status_code response =? 404 then
       requests_post (AIRFLOW_BASE_URL cfg +:+ "/variables")
         (JObj [("key", JStr key); ("value", JStr value)]) auth headers
     else mret response);
  lift (raise_for_status response);;
  lift (response_json response).

(** Each handler is one [try] statement: its suite, and the suite of its
    [except Exception as e] clause. *)

Definition acknowledge_post_try (request : FlaskRequest) : Py W FlaskResponse :=
  req ← lift (get_json request);
  dag_id ← lift (py_get req "dag_id" JNull);
  task_id ← lift (py_get req "task_id" (JStr "unknown"));
  if negb (py_truthy dag_id) then
    mret {| body := jsonify (JObj [("status", JStr "error");
                                   ("message", JStr "dag_id is required")]);
            status := 400 |}
  else
    let var_key := "twilio_alert_enabled_" +:+ py_str dag_id in
    set_airflow_variable var_key "false";;
    logger_info ("Alert acknowledged for DAG '" +:+ py_str dag_id
                 +:+ "', Task '" +:+ py_str task_id +:+ "'");;
    mret {| body := jsonify (JObj [
              ("status", JStr "success");
              ("message", JStr ("Alerts paused for DAG '" +:+ py_str dag_id
                 +:+ "' based on acknowledgment from task '" +:+ py_str task_id +:+ "'."));
              ("dag_id", dag_id);
              ("task_id", task_id)]);
            status := 200 |}.

Definition acknowledge_post_except (e : exn) : Py W FlaskResponse :=
  logger_error ("Error acknowledging alert: " +:+ exn_str e);;
  mret {| body := jsonify (JObj [("status", JStr "error");
                                 ("message", JStr (exn_str e))]);
          status := 500 |}.

Definition acknowledge_post (request : FlaskRequest) : Py W FlaskResponse :=
  try_except (acknowledge_post_try request) acknowledge_post_except.

Definition acknowledge_get_try (request : FlaskRequest) : Py W FlaskResponse :=
  let dag_id := args_get (args request) "dag_id" JNull in
  let task_id := args_get (args request) "task_id" (JStr "unknown") in
  if negb (py_truthy dag_id) then
    mret {| body := render_template_string ACK_PAGE_TEMPLATE
                      [("success", JBool false);
                       ("error", JStr "Missing dag_id parameter")];
            status := 400 |}
  else
    let var_key := "twilio_alert_enabled_" +:+ py_str dag_id in
    set_airflow_variable var_key "false";;
    logger_info ("Alert acknowledged via GET for DAG '" +:+ py_str dag_id
                 +:+ "', Task '" +:+ py_str task_id +:+ "'");;
    timestamp ← datetime_now;
    mret {| body := render_template_string ACK_PAGE_TEMPLATE
                      [("success", JBool true);
                       ("dag_id", dag_id);
                       ("task_id", task_id);
                       ("timestamp", JStr timestamp)];
            status := 200 |}.

Definition acknowledge_get_except (e : exn) : Py W FlaskResponse :=
  logger_error ("Error acknowledging alert via GET: " +:+ exn_str e);;
  mret {| body := render_template_string ACK_PAGE_TEMPLATE
                    [("success", JBool false);
                     ("error", JStr (exn_str e))];
          status := 500 |}.

Definition acknowledge_get (request : FlaskRequest) : Py W FlaskResponse :=
  try_except (acknowledge_get_try request) acknowledge_get_except.

Definition get_acknowledgment_status_try (dag_id : string) : Py W FlaskResponse :=
  let var_key := "twilio_alert_enabled_" +:+ dag_id in
  let url := AIRFLOW_BASE_URL cfg +:+ "/variables/" +:+ var_key in
  let auth := {| username := AIRFLOW_USERNAME cfg; password := AIRFLOW_PASSWORD cfg |} in
  response ← requests_get url auth;
  if status_code response =? 404 then
    mret {| body := jsonify (JObj [("dag_id", JStr dag_id);
                                   ("alerts_enabled", JBool true);
                                   ("acknowledged", JBool false)]);
            status := 200 |}
  else
    lift (raise_for_status response);;
    var_data ← lift (response_json response);
    value ← lift (py_get var_data "value" (JStr "true"));
    lowered ← lift (py_lower value);
    let alerts_enabled := String.eqb lowered "true" in
    mret {| body := jsonify (JObj [("dag_id", JStr dag_id);
                                   ("alerts_enabled", JBool alerts_enabled);
                                   ("acknowledged", JBool (negb alerts_enabled))]);
            status := 200 |}.

Definition get_acknowledgment_status_except (e : exn) : Py W FlaskResponse :=
  logger_error ("Error getting acknowledgment status: " +:+ exn_str e);;
  mret {| body := jsonify (JObj [("success", JBool false);
                                 ("error", JStr (exn_str e))]);
          status := 500 |}.

Definition get_acknowledgment_status (dag_id : string) : Py W FlaskResponse :=
  try_except (get_acknowledgment_status_try dag_id) get_acknowledgment_status_except.

Definition reset_acknowledgment_try (dag_id : string) : Py W FlaskResponse :=
  let var_key := "twilio_alert_enabled_" +:+ dag_id in
  set_airflow_variable var_key "true";;
  logger_info ("Alerts re-enabled for DAG '" +:+ dag_id +:+ "'");;
  mret {| body := jsonify (JObj [("success", JBool true);
                                 ("message", JStr ("Alerts re-enabled for DAG '"
                                                   +:+ dag_id +:+ "'"))]);
          status := 200 |}.

Definition reset_acknowledgment_except (e : exn) : Py W FlaskResponse :=
  logger_error ("Error resetting acknowledgment: " +:+ exn_str e);;
  mret {| body := jsonify (JObj [("success", JBool false);
                                 ("error", JStr (exn_str e))]);
          status := 500 |}.

Definition reset_acknowledgment (dag_id : string) : Py W FlaskResponse :=
  try_except (reset_acknowledgment_try dag_id) reset_acknowledgment_except.

Definition health_check : Py W FlaskResponse :=
  mret {| body := jsonify (JObj [("status", JStr "healthy");
                                 ("service", JStr "Airflow Alert Acknowledgment API")]);
          status := 200 |}.

Definition index : Py W FlaskResponse :=
  mret {| body := index_page; status := 200 |}.

Definition dispatch (route : Route) (request : FlaskRequest) : Py W FlaskResponse :=
  match route with
  | acknowledge_post_rule => acknowledge_post request
  | acknowledge_get_rule => acknowledge_get request
  | get_acknowledgment_status_rule dag_id => get_acknowledgment_status dag_id
  | reset_acknowledgment_rule dag_id => reset_acknowledgment dag_id
  | health_check_rule => health_check
  | index_rule => index
  end.

(** The code of a view that runs under its [try]; [health_check] and
    [index] have no [try] and nothing in them can raise. *)
Definition guarded (route : Route) (request : FlaskRequest) : Py W FlaskResponse :=
  match route with
  | acknowledge_post_rule => acknowledge_post_try request
  | acknowledge_get_rule => acknowledge_get_try request
  | get_acknowledgment_status_rule dag_id => get_acknowledgment_status_try dag_id
  | reset_acknowledgment_rule dag_id => reset_acknowledgment_try dag_id
  | health_check_rule => health_check
  | index_rule => index
  end.
End App.

(** ** A reference upstream

    Airflow's variable endpoints as the relay uses them: GET and PATCH of
    [/variables/{key}] answer 404 for a key that is not stored, POST of
    [/variables] creates the variable.  A server that is not reachable
    fails every call below HTTP.  [endpoint] is the base URL it serves. *)

Fixpoint strip_prefix (p s : string) : option string :=
  match p, s with
  | EmptyString, _ => Some s
  | String a p', String b s' => if Ascii.eqb a b then strip_prefix p' s' else None
  | String _ _, EmptyString => None
  end.

Record airflow : Type := {
  reachable : bool;
  variables : gmap string string;
  time : string
}.

Definition variable_json (k v : string) : json :=
  JObj [("key", JStr k); ("value", JStr v)].

Definition answer (code : Z) (phrase : string) (rq : HttpRequest) (j : json) : Response :=
  {| status_code := code; reason := phrase; url := target rq; content := Decoded j |}.

Definition not_found_answer (rq : HttpRequest) : Response :=
  answer 404 "NOT FOUND" rq (JObj [("title", JStr "Variable not found"); ("status", JInt 404)]).

Definition bad_request_answer (rq : HttpRequest) : Response :=
  answer 400 "BAD REQUEST" rq (JObj [("title", JStr "Bad Request"); ("status", JInt 400)]).

Definition store (k v : string) (w : airflow) : airflow :=
  {| reachable := reachable w;
     variables := <[k := v]> (variables w); time := time w |}.

Definition airflow_send (endpoint : string) (rq : HttpRequest) (w : airflow) : (string + Response) * airflow :=
  if negb (reachable w) then (inl "Connection refused", w)
  else
    match method rq with
    | GET =>
        match strip_prefix (endpoint +:+ "/variables/") (target rq) with
        | Some k =>
            match variables w !! k with
            | Some v => (inr (answer 200 "OK" rq (variable_json k v)), w)
            | None => (inr (not_found_answer rq), w)
            end
        | None => (inr (not_found_answer rq), w)
        end
    | PATCH =>
        match strip_prefix (endpoint +:+ "/variables/") (target rq), payload rq with
        | Some k, Some (JObj items) =>
            match dict_lookup "value" items, variables w !! k with
            | Some (JStr v), Some _ => (inr (answer 200 "OK" rq (variable_json k v)), store k v w)
            | Some (JStr v), None => (inr (not_found_answer rq), w)
            | _, _ => (inr (bad_request_answer rq), w)
            end
        | Some k, _ => (inr (bad_request_answer rq), w)
        | None, _ => (inr (not_found_answer rq), w)
        end
    | POST =>
        if String.eqb (target rq) (endpoint +:+ "/variables") then
          match payload rq with
          | Some (JObj items) =>
              match dict_lookup "key" items, dict_lookup "value" items with
              | Some (JStr k), Some (JStr v) =>
                  (inr (answer 200 "OK" rq (variable_json k v)), store k v w)
              | _, _ => (inr (bad_request_answer rq), w)
              end
          | _ => (inr (bad_request_answer rq), w)
          end
        else (inr (not_found_answer rq), w)
    end.


(** An interpreter whose [repr] of a str puts it in single quotes and whose
    floats all print alike; enough to run the handlers on examples. *)
#[export] Instance plain_builtins : Builtins :=
  {| float_repr := λ _, "0.0"; str_repr := λ s, "'" +:+ s +:+ "'" |}.

Definition default_config : Config := load_config [].

(** The Airflow that the default configuration points at. *)
#[export] Instance airflow_upstream : Upstream airflow :=
  {| send := airflow_send (AIRFLOW_BASE_URL default_config); clock := time |}.

Definition initial {W} (w : W) : state W :=
  {| world := w; sent := []; logged := [] |}.

(** A fresh local Airflow with no variables, and one that is down. *)
Definition fresh_airflow : airflow :=
  {| reachable := true;
     variables := ∅; time := "2024-01-01 00:00:00" |}.

Definition airflow_down : airflow :=
  {| reachable := false;
     variables := ∅; time := "2024-01-01 00:00:00" |}.

(** A scripted upstream, as a test double: the answers to give, in order,
    whatever is asked; when the script is over every call fails below
    HTTP. *)
Definition scripted_send (rq : HttpRequest) (script : list (string + Response))
    : (string + Response) * list (string + Response) :=
  match script with
  | [] => (inl "Connection aborted", [])
  | a :: rest => (a, rest)
  end.

#[export] Instance scripted_upstream : Upstream (list (string + Response)) :=
  {| send := scripted_send; clock := λ _, "2024-01-01 00:00:00" |}.

Definition scripted_answer (code : Z) (phrase : string) (c : decoded) : string + Response :=
  inr {| status_code := code; reason := phrase;
         url := "http://localhost:8080/api/v1/variables"; content := c |}.

(** Requests and worlds to run the handlers on. *)
Definition post_of (j : json) : FlaskRequest :=
  {| get_json := inr j; args := [] |}.

Definition query_of (a : list (string * string)) : FlaskRequest :=
  {| get_json := inl (HTTPException 415 "Unsupported Media Type"
                        "Did not attempt to load JSON data because the request Content-Type was not 'application/json'.");
     args := a |}.

Definition orders_load : FlaskRequest :=
  {| get_json := inr (JObj [("dag_id", JStr "orders_pipeline"); ("task_id", JStr "load_step")]);
     args := [("dag_id", "orders_pipeline"); ("task_id", "load_step")] |}.

Definition orders_export : FlaskRequest :=
  {| get_json := inr (JObj [("dag_id", JStr "orders_pipeline"); ("task_id", JStr "export_step")]);
     args := [("dag_id", "orders_pipeline"); ("task_id", "export_step")] |}.

Definition airflow_with (key value : string) : airflow :=
  {| reachable := true; variables := {[ key := value ]}; time := "2024-01-01 00:00:00" |}.

(** Answers of an upstream in trouble: a 503, and a flag whose value is
    a number. *)
Definition unavailable : Response :=
  {| status_code := 503; reason := "SERVICE UNAVAILABLE";
     url := "http://localhost:8080/api/v1/variables"; content := Decoded JNull |}.

Definition numeric_flag : Response :=
  {| status_code := 200; reason := "OK";
     url := "http://localhost:8080/api/v1/variables";
     content := Decoded (JObj [("key", JStr "twilio_alert_enabled_orders_pipeline");
                               ("value", JInt 0)]) |}.

(** The two requests of [set_airflow_variable], and the read of the status
    handler, as they go out. *)
Definition update_request (cfg : Config) (key value : string) : HttpRequest :=
  {| method := PATCH;
     target := AIRFLOW_BASE_URL cfg +:+ "/variables/" +:+ key;
     payload := Some (JObj [("value", JStr value)]);
     auth := {| username := AIRFLOW_USERNAME cfg; password := AIRFLOW_PASSWORD cfg |};
     headers := [("Content-Type", "application/json")] |}.

Definition create_request (cfg : Config) (key value : string) : HttpRequest :=
  {| method := POST;
     target := AIRFLOW_BASE_URL cfg +:+ "/variables";
     payload := Some (JObj [("key", JStr key); ("value", JStr value)]);
     auth := {| username := AIRFLOW_USERNAME cfg; password := AIRFLOW_PASSWORD cfg |};
     headers := [("Content-Type", "application/json")] |}.

Definition read_request (cfg : Config) (key : string) : HttpRequest :=
  {| method := GET;
     target := AIRFLOW_BASE_URL cfg +:+ "/variables/" +:+ key;
     payload := None;
     auth := {| username := AIRFLOW_USERNAME cfg; password := AIRFLOW_PASSWORD cfg |};
     headers := [] |}.

(** The flag of a workflow. *)
Definition flag_key (dag_id : string) : string := "twilio_alert_enabled_" +:+ dag_id.

(** How one upstream call ended, as the relay tells the cases apart:
    not-found is a response with status 404; a call succeeded with [j] when
    a response came back, [raise_for_status] lets it pass and its body
    decodes to [j]; it failed with [e] when [requests] raised [e] below
    HTTP, the status is an error status, or the body is malformed. *)
Definition not_found (out : string + Response) : bool :=
  match out with
  | inr r => status_code r =? 404
  | inl _ => false
  end.

Definition succeeded (out : string + Response) (j : json) : Prop :=
  ∃ r, out = inr r ∧ ok r = true ∧ content r = Decoded j.

Definition call_result (out : string + Response) : exn + json :=
  match out with
  | inl msg => inl (RequestException msg)
  | inr r =>
      match raise_for_status r with
      | inl e => inl e
      | inr _ => response_json r
      end
  end.

(** ** Vocabulary of the properties *)

(** The workflow identifier a request names: [dag_id] of a JSON object
    body, and [dag_id] of the query string. *)
Definition body_dag_id (request : FlaskRequest) : json :=
  match get_json request with
  | inr (JObj items) => from_option id JNull (dict_lookup "dag_id" items)
  | _ => JNull
  end.

Definition query_dag_id (request : FlaskRequest) : json :=
  args_get (args request) "dag_id" JNull.




(** The text is ["true"] up to the case of its four letters. *)
Definition true_ignoring_case (s : string) : Prop :=
  ∃ c1 c2 c3 c4 : Ascii.ascii,
    s = String c1 (String c2 (String c3 (String c4 EmptyString))) ∧
    (c1 = "t"%char ∨ c1 = "T"%char) ∧ (c2 = "r"%char ∨ c2 = "R"%char) ∧
    (c3 = "u"%char ∨ c3 = "U"%char) ∧ (c4 = "e"%char ∨ c4 = "E"%char).

(** The shape of a body: a JSON document with its top-level keys, or a
    page with the names its context binds. *)
Inductive Shape : Type :=
| JsonShape (keys : list string)
| PageShape (names : list string).

Definition body_shape (b : Body) : Shape :=
  match b with
  | jsonify j => JsonShape (dict_keys j)
  | render_template_string _ context => PageShape (map fst context)
  | index_page => PageShape []
  end.

Section Store.
Context {W : Type} `{Upstream W}.
Variable cfg : Config.

(** In world [w] a read of [key] is answered with a variable whose value
    is [value]. *)
Definition reads_back (key value : string) (w : W) : Prop :=
  ∃ r w' items,
    send (read_request cfg key) w = (inr r, w') ∧
    status_code r ≠ 404 ∧ ok r = true ∧
    content r = Decoded (JObj items) ∧
    dict_lookup "value" items = Some (JStr value).

(** The upstream is a store for [key]: whenever it accepts an update of
    [key], or answers the update 404 and accepts the create, the next read
    of [key] gives the value written. *)
Definition keeps_writes (key : string) : Prop :=
  ∀ (value : string) (w : W),
    let '(o1, w1) := send (update_request cfg key value) w in
    let '(o2, w2) := send (create_request cfg key value) w1 in
    (∀ j, succeeded o1 j → reads_back key value w1) ∧
    (∀ j, not_found o1 = true → succeeded o2 j → reads_back key value w2).
End Store.

(** The responses of the handlers. *)
Definition missing_dag_id_json : FlaskResponse :=
  {| body := jsonify (JObj [("status", JStr "error"); ("message", JStr "dag_id is required")]);
     status := 400 |}.

Definition missing_dag_id_page : FlaskResponse :=
  {| body := render_template_string ACK_PAGE_TEMPLATE
               [("success", JBool false); ("error", JStr "Missing dag_id parameter")];
     status := 400 |}.

Definition status_json (dag_id : string) (alerts_enabled : bool) : FlaskResponse :=
  {| body := jsonify (JObj [("dag_id", JStr dag_id);
                            ("alerts_enabled", JBool alerts_enabled);
                            ("acknowledged", JBool (negb alerts_enabled))]);
     status := 200 |}.

(** The body a handler answers an exception with. *)
Definition error_body (route : Route) (e : exn) : Body :=
  match route with
  | acknowledge_post_rule =>
      jsonify (JObj [("status", JStr "error"); ("message", JStr (exn_str e))])
  | acknowledge_get_rule =>
      render_template_string ACK_PAGE_TEMPLATE
        [("success", JBool false); ("error", JStr (exn_str e))]
  | get_acknowledgment_status_rule _ | reset_acknowledgment_rule _
  | health_check_rule | index_rule =>
      jsonify (JObj [("success", JBool false); ("error", JStr (exn_str e))])
  end.

(** The text a handler logs an exception under. *)
Definition error_log (route : Route) (e : exn) : string :=
  match route with
  | acknowledge_post_rule => "Error acknowledging alert: " +:+ exn_str e
  | acknowledge_get_rule => "Error acknowledging alert via GET: " +:+ exn_str e
  | get_acknowledgment_status_rule _ => "Error getting acknowledgment status: " +:+ exn_str e
  | reset_acknowledgment_rule _ => "Error resetting acknowledgment: " +:+ exn_str e
  | health_check_rule | index_rule => EmptyString
  end.

(** ** The acknowledgment page *)

(** The double quote and the line feed, which the text below is full of. *)
Definition dq : string := String (Ascii.ascii_of_nat 34) EmptyString.
Definition nl : string := String (Ascii.ascii_of_nat 10) EmptyString.

(** The text of [ACK_PAGE_TEMPLATE] between its tags, in order: up to
    [{% if success %}], then up to [{{ dag_id }}], [{{ task_id }}],
    [{{ timestamp }}] and [{% else %}], then up to [{{ error }}] and
    [{% endif %}], then the rest.  Jinja drops the one line feed that ends
    a template, so the last text stops at the closing tag of the page. *)
Definition page_head : string :=
  nl
  +:+ "<!DOCTYPE html>" +:+ nl
  +:+ "<html>" +:+ nl
  +:+ "<head>" +:+ nl
  +:+ "    <title>Alert Acknowledged</title>" +:+ nl
  +:+ "    <style>" +:+ nl
  +:+ "        body {" +:+ nl
  +:+ "            font-family: 'Segoe UI', Tahoma, Geneva, Verdana, sans-serif;" +:+ nl
  +:+ "            display: flex;" +:+ nl
  +:+ "            justify-content: center;" +:+ nl
  +:+ "            align-items: center;" +:+ nl
  +:+ "            height: 100vh;" +:+ nl
  +:+ "            margin: 0;" +:+ nl
  +:+ "            background: linear-gradient(135deg, #667eea 0%, #764ba2 100%);" +:+ nl
  +:+ "        }" +:+ nl
  +:+ "        .container {" +:+ nl
  +:+ "            background: white;" +:+ nl
  +:+ "            padding: 40px;" +:+ nl
  +:+ "            border-radius: 10px;" +:+ nl
  +:+ "            box-shadow: 0 10px 30px rgba(0,0,0,0.3);" +:+ nl
  +:+ "            text-align: center;" +:+ nl
  +:+ "            max-width: 500px;" +:+ nl
  +:+ "        }" +:+ nl
  +:+ "        .success-icon {" +:+ nl
  +:+ "            font-size: 64px;" +:+ nl
  +:+ "            margin-bottom: 20px;" +:+ nl
  +:+ "        }" +:+ nl
  +:+ "        h1 {" +:+ nl
  +:+ "            color: #2d3748;" +:+ nl
  +:+ "            margin-bottom: 10px;" +:+ nl
  +:+ "        }" +:+ nl
  +:+ "        p {" +:+ nl
  +:+ "            color: #4a5568;" +:+ nl
  +:+ "            line-height: 1.6;" +:+ nl
  +:+ "        }" +:+ nl
  +:+ "        .details {" +:+ nl
  +:+ "            background: #f7fafc;" +:+ nl
  +:+ "            padding: 15px;" +:+ nl
  +:+ "            border-radius: 5px;" +:+ nl
  +:+ "            margin-top: 20px;" +:+ nl
  +:+ "            text-align: left;" +:+ nl
  +:+ "        }" +:+ nl
  +:+ "        .details strong {" +:+ nl
  +:+ "            color: #2d3748;" +:+ nl
  +:+ "        }" +:+ nl
  +:+ "        .error {" +:+ nl
  +:+ "            color: #e53e3e;" +:+ nl
  +:+ "        }" +:+ nl
  +:+ "    </style>" +:+ nl
  +:+ "</head>" +:+ nl
  +:+ "<body>" +:+ nl
  +:+ "    <div class=" +:+ dq +:+ "container" +:+ dq +:+ ">" +:+ nl
  +:+ "        ".

Definition success_dag : string :=
  nl
  +:+ "        <div class=" +:+ dq +:+ "success-icon" +:+ dq +:+ ">‚úÖ</div>" +:+ nl
  +:+ "        <h1>Alert Acknowledged!</h1>" +:+ nl
  +:+ "        <p>The cascade calling has been stopped.</p>" +:+ nl
  +:+ "        <div class=" +:+ dq +:+ "details" +:+ dq +:+ ">" +:+ nl
  +:+ "            <p><strong>DAG:</strong> ".

Definition success_task : string :=
  "</p>" +:+ nl
  +:+ "            <p><strong>Task:</strong> ".

Definition success_time : string :=
  "</p>" +:+ nl
  +:+ "            <p><strong>Timestamp:</strong> ".

Definition success_end : string :=
  "</p>" +:+ nl
  +:+ "        </div>" +:+ nl
  +:+ "        <p style=" +:+ dq +:+ "margin-top: 20px; color: #718096; font-size: 14px;" +:+ dq +:+ ">" +:+ nl
  +:+ "            You can close this window now." +:+ nl
  +:+ "        </p>" +:+ nl
  +:+ "        ".

Definition failure_error : string :=
  nl
  +:+ "        <div class=" +:+ dq +:+ "success-icon error" +:+ dq +:+ ">‚ùå</div>" +:+ nl
  +:+ "        <h1>Acknowledgment Failed</h1>" +:+ nl
  +:+ "        <p class=" +:+ dq +:+ "error" +:+ dq +:+ ">".

Definition failure_end : string :=
  "</p>" +:+ nl
  +:+ "        ".

Definition page_tail : string :=
  nl
  +:+ "    </div>" +:+ nl
  +:+ "</body>" +:+ nl
  +:+ "</html>".

(** The constructs the template is written in: text, [{{ name }}] and
    [{% if name %} ... {% else %} ... {% endif %}]. *)
Inductive jinja : Type :=
| Data (text : string)
| Print (name : string)
| IfElse (name : string) (then_ else_ : list jinja).

Definition template_source (t : Template) : list jinja :=
  match t with
  | ACK_PAGE_TEMPLATE =>
      [Data page_head;
       IfElse "success"
         [Data success_dag; Print "dag_id";
          Data success_task; Print "task_id";
          Data success_time; Print "timestamp";
          Data success_end]
         [Data failure_error; Print "error";
          Data failure_end];
       Data page_tail]
  end.

(** [markupsafe.escape], which [render_template_string] applies to what
    [{{ }}] prints: the five characters that HTML reads as markup become
    entities. *)
Definition escape_char (c : ascii) : string :=
  if Ascii.eqb c "&" then "&amp;"
  else if Ascii.eqb c "<" then "&lt;"
  else if Ascii.eqb c ">" then "&gt;"
  else if Ascii.eqb c "'" then "&#39;"
  else if Ascii.eqb c (Ascii.ascii_of_nat 34) then "&#34;"
  else String c EmptyString.

Fixpoint html_escape (s : string) : string :=
  match s with
  | EmptyString => EmptyString
  | String c rest => escape_char c +:+ html_escape rest
  end.

(** The characters of a text. *)
Fixpoint chars (s : string) : list ascii :=
  match s with
  | EmptyString => []
  | String c rest => c :: chars rest
  end.

(** A text that HTML reads as text only: no angle bracket and no quote. *)
Definition markup_free (s : string) : Prop :=
  ∀ c, c ∈ chars s →
    c ≠ "<"%char ∧ c ≠ ">"%char ∧ c ≠ "'"%char ∧ c ≠ Ascii.ascii_of_nat 34.

Section Rendering.
Context `{Builtins}.

(** Rendering in a context: a name that the context does not bind prints
    as nothing and tests as false. *)
Fixpoint render_node (context : list (string * json)) (n : jinja) : list string :=
  match n with
  | Data text => [text]
  | Print name =>
      match dict_lookup name context with
      | Some v => [html_escape (py_str v)]
      | None => [EmptyString]
      end
  | IfElse name then_ else_ =>
      if from_option py_truthy false (dict_lookup name context)
      then flat_map (render_node context) then_
      else flat_map (render_node context) else_
  end.

Definition render (t : Template) (context : list (string * json)) : string :=
  String.concat EmptyString (flat_map (render_node context) (template_source t)).

(** The names that rendering looks up, in the branches it takes. *)
Fixpoint looked_up (context : list (string * json)) (n : jinja) : list string :=
  match n with
  | Data _ => []
  | Print name => [name]
  | IfElse name then_ else_ =>
      name ::
      (if from_option py_truthy false (dict_lookup name context)
       then flat_map (looked_up context) then_
       else flat_map (looked_up context) else_)
  end.
End Rendering.

(** ** Vocabulary of the further properties *)

(** A request that carries the configured credentials and addresses the
    variables of the configured base URL. *)
Definition configured (cfg : Config) (rq : HttpRequest) : Prop :=
  auth rq = {| username := AIRFLOW_USERNAME cfg; password := AIRFLOW_PASSWORD cfg |} ∧
  ∃ rest, target rq = AIRFLOW_BASE_URL cfg +:+ "/variables" +:+ rest.

(** The methods a route may use upstream. *)
Definition may_use (route : Route) (m : Method) : Prop :=
  match route with
  | acknowledge_post_rule | acknowledge_get_rule | reset_acknowledgment_rule _ =>
      m = PATCH ∨ m = POST
  | get_acknowledgment_status_rule _ => m = GET
  | health_check_rule | index_rule => False
  end.

(** The status an acknowledge answers with, given whether the identifier
    is there and how the write ended. *)
Definition acknowledge_status {A} (dag_id : json) (write : exn + A) : Z :=
  if py_truthy dag_id then
    match write with
    | inr _ => 200
    | inl _ => 500
    end
  else 400.

(** The message of the HTTPError that [raise_for_status] raises. *)
Definition http_error_message (r : Response) : string :=
  pretty (status_code r)
  +:+ (if status_code r <? 500 then " Client Error: " else " Server Error: ")
  +:+ reason r +:+ " for url: " +:+ url r.

(** What a route sends upstream in one request: nothing, the update of a
    flag with a value and perhaps its create, or the read of a flag. *)
Inductive route_calls (cfg : Config) : Route → list HttpRequest → Prop :=
| calls_none (route : Route) :
    route_calls cfg route []
| calls_update (route : Route) (key value : string) :
    may_use route PATCH →
    route_calls cfg route [update_request cfg key value]
| calls_update_create (route : Route) (key value : string) :
    may_use route PATCH →
    route_calls cfg route [update_request cfg key value; create_request cfg key value]
| calls_read (dag_id : string) :
    route_calls cfg (get_acknowledgment_status_rule dag_id)
      [read_request cfg (flag_key dag_id)].

(** The answer to a read lets the status handler tell the flag: it is a
    404, or it passes [raise_for_status] and is a JSON object whose
    [value] is absent or a text. *)
Definition tells_flag (out : string + Response) : Prop :=
  ∃ r, out = inr r ∧
    (status_code r = 404 ∨
     (ok r = true ∧ ∃ items, content r = Decoded (JObj items) ∧
        (dict_lookup "value" items = None ∨
         ∃ s, dict_lookup "value" items = Some (JStr s)))).

(** The records one request adds to the log, given the status it is
    answered with: one error record with a 500, otherwise nothing or one
    info record. *)
Definition log_matches (code : Z) (records : list (string * string)) : Prop :=
  if code =? 500 then ∃ msg, records = [("ERROR", msg)]
  else records = [] ∨ ∃ msg, records = [("INFO", msg)].

(** ** Facts about the building blocks *)

Lemma raise_for_status_ok (r : Response) :
  ok r = true → raise_for_status r = inr ().
Proof.
  unfold ok, raise_for_status. intros Hok.
  destruct (400 <=? status_code r) eqn:Hlo; simpl in *.
  - destruct (status_code r <? 600) eqn:Hhi; [discriminate|].
    assert ((status_code r <? 500) = false) as -> by lia.
    by rewrite andb_false_r.
  - assert ((500 <=? status_code r) = false) as -> by lia. done.
Qed.

Lemma raise_for_status_error (r : Response) :
  ok r = false → ∃ msg, raise_for_status r = inl (HTTPError msg r).
Proof.
  unfold ok, raise_for_status. intros Hok.
  apply negb_false_iff, andb_true_iff in Hok as [Hlo Hhi].
  rewrite Hlo. simpl.
  destruct (status_code r <? 500) eqn:Hmid; [eauto|].
  assert ((500 <=? status_code r) = true) as -> by lia.
  rewrite Hhi. simpl. eauto.
Qed.

Lemma not_found_not_ok (r : Response) :
  status_code r = 404 → ok r = false.
Proof. unfold ok. intros ->. reflexivity. Qed.

Lemma call_result_succeeded (out : string + Response) (j : json) :
  call_result out = inr j ↔ succeeded out j.
Proof.
  unfold call_result, succeeded, response_json. split.
  - destruct out as [msg|r]; [discriminate|].
    destruct (ok r) eqn:Hok.
    + rewrite (raise_for_status_ok r Hok).
      destruct (content r) eqn:Hc; [discriminate|].
      intros [= ->]. eauto.
    + destruct (raise_for_status_error r Hok) as [msg ->]. discriminate.
  - intros (r & -> & Hok & Hc).
    by rewrite (raise_for_status_ok r Hok), Hc.
Qed.

Ltac by_cases_on_ascii c :=
  destruct c as [[] [] [] [] [] [] [] []]; vm_compute;
  (split; [intros [=]; auto | intros [[=]|[=]]; reflexivity]) ||
  (split; [intros [=] | intros [[=]|[=]]]).

Lemma ascii_lower_t (c : ascii) :
  ascii_lower c = "t"%char ↔ c = "t"%char ∨ c = "T"%char.
Proof. by_cases_on_ascii c. Qed.

Lemma ascii_lower_r (c : ascii) :
  ascii_lower c = "r"%char ↔ c = "r"%char ∨ c = "R"%char.
Proof. by_cases_on_ascii c. Qed.

Lemma ascii_lower_u (c : ascii) :
  ascii_lower c = "u"%char ↔ c = "u"%char ∨ c = "U"%char.
Proof. by_cases_on_ascii c. Qed.

Lemma ascii_lower_e (c : ascii) :
  ascii_lower c = "e"%char ↔ c = "e"%char ∨ c = "E"%char.
Proof. by_cases_on_ascii c. Qed.

(** Lower-casing gives ["true"] exactly for the sixteen spellings of it. *)
Lemma str_lower_true (s : string) :
  String.eqb (str_lower s) "true" = true ↔ true_ignoring_case s.
Proof.
  rewrite String.eqb_eq. unfold true_ignoring_case. split.
  - destruct s as [|c1 [|c2 [|c3 [|c4 [|c5 s]]]]]; simpl; try discriminate.
    intros [= H1 H2 H3 H4].
    exists c1, c2, c3, c4. split; [done|].
    by rewrite <- ascii_lower_t, <- ascii_lower_r, <- ascii_lower_u, <- ascii_lower_e.
  - intros (c1 & c2 & c3 & c4 & -> & H1 & H2 & H3 & H4). simpl.
    apply ascii_lower_t in H1. apply ascii_lower_r in H2.
    apply ascii_lower_u in H3. apply ascii_lower_e in H4.
    by rewrite H1, H2, H3, H4.
Qed.

Section Relay.
Context `{Builtins} {W : Type} `{Upstream W}.
Variable cfg : Config.

(** The helper in one equation: the update goes out first; on not-found
    the create follows; the last call decides the result. *)
Lemma set_airflow_variable_run (key value : string) (st : state W) :
  set_airflow_variable cfg key value st =
    let (o1, w1) := send (update_request cfg key value) (world st) in
    if not_found o1 then
      let (o2, w2) := send (create_request cfg key value) w1 in
      (call_result o2,
       after_call (create_request cfg key value) w2
         (after_call (update_request cfg key value) w1 st))
    else
      (call_result o1, after_call (update_request cfg key value) w1 st).
Proof.
  unfold set_airflow_variable, requests_patch, requests_post, requests_request,
    mbind, py_bind, mret, py_ret, lift, update_request, create_request. simpl.
  destruct (send _ (world st)) as [[msg|r] w1]; simpl; [done|].
  destruct (status_code r =? 404) eqn:H404; simpl.
  - destruct (send _ w1) as [[msg|r'] w2]; simpl; [done|].
    by destruct (raise_for_status r').
  - by destruct (raise_for_status r).
Qed.

(** C1. [set_airflow_variable] sends the PATCH of the variable first; it
    sends the POST that creates the variable, with the same key and
    value, if and only if the PATCH was answered 404; a response with an
    error status, of the PATCH (other than 404) or of the POST, is raised
    as an HTTPError that carries it; and the call returns exactly when
    the update succeeded or, after a 404, the create succeeded. *)
Theorem set_airflow_variable_update_or_create (key value : string) (st : state W) :
  let '(o1, w1) := send (update_request cfg key value) (world st) in
  let '(o2, w2) := send (create_request cfg key value) w1 in
  let '(res, st') := set_airflow_variable cfg key value st in
  sent st' = (sent st ++
    (if not_found o1
     then [update_request cfg key value; create_request cfg key value]
     else [update_request cfg key value]))%list
  ∧ (∀ j, res = inr j ↔ succeeded o1 j ∨ (not_found o1 = true ∧ succeeded o2 j))
  ∧ (∀ r, (o1 = inr r ∧ status_code r ≠ 404) ∨ (not_found o1 = true ∧ o2 = inr r) →
          ok r = false → ∃ msg, res = inl (HTTPError msg r)).
Proof.
  rewrite set_airflow_variable_run.
  destruct (send (update_request cfg key value) (world st)) as [o1 w1].
  destruct (send (create_request cfg key value) w1) as [o2 w2].
  destruct (not_found o1) eqn:Hnf; simpl.
  - split; [by rewrite <- app_assoc|]. split.
    + intros j. rewrite call_result_succeeded. split; [auto|].
      intros [(r & -> & Hok & _)|[_ Hs]]; [|done].
      simpl in Hnf. apply Z.eqb_eq in Hnf.
      by rewrite (not_found_not_ok r Hnf) in Hok.
    + intros r [[-> Hne]|[_ ->]] Hok.
      * simpl in Hnf. apply Z.eqb_eq in Hnf. done.
      * simpl. destruct (raise_for_status_error r Hok) as [msg ->]. eauto.
  - split; [done|]. split.
    + intros j. rewrite call_result_succeeded. split; [auto|].
      intros [Hs|[Hc _]]; done.
    + intros r [[-> Hne]|[Hc _]] Hok; [|done].
      simpl. destruct (raise_for_status_error r Hok) as [msg ->]. eauto.
Qed.

(** *** The acknowledge handlers, step by step *)

Ltac run_py :=
  unfold mbind, py_bind, mret, py_ret, lift, logger_info, logger_error,
    datetime_now, try_except; simpl.

(** A helper call leaves the log alone and only adds to the requests. *)
Lemma set_airflow_variable_sent (key value : string) (st : state W) :
  let st' := (set_airflow_variable cfg key value st).2 in
  logged st' = logged st ∧
  (sent st' = sent st ++ [update_request cfg key value] ∨
   sent st' = sent st ++ [update_request cfg key value; create_request cfg key value]).
Proof.
  rewrite set_airflow_variable_run.
  destruct (send (update_request cfg key value) (world st)) as [o1 w1].
  destruct (not_found o1).
  - destruct (send (create_request cfg key value) w1) as [o2 w2]. simpl.
    split; [done|]. right. by rewrite <- app_assoc.
  - simpl. auto.
Qed.

Lemma acknowledge_post_try_object (request : FlaskRequest) (items : list (string * json))
    (st : state W) :
  get_json request = inr (JObj items) →
  acknowledge_post_try cfg request st =
    let dag_id := from_option id JNull (dict_lookup "dag_id" items) in
    let task_id := from_option id (JStr "unknown") (dict_lookup "task_id" items) in
    if py_truthy dag_id then
      match set_airflow_variable cfg (flag_key (py_str dag_id)) "false" st with
      | (inl e, st1) => (inl e, st1)
      | (inr _, st1) =>
          (inr {| body := jsonify (JObj [
                    ("status", JStr "success");
                    ("message", JStr ("Alerts paused for DAG '" +:+ py_str dag_id
                       +:+ "' based on acknowledgment from task '" +:+ py_str task_id +:+ "'."));
                    ("dag_id", dag_id);
                    ("task_id", task_id)]);
                  status := 200 |},
           with_log "INFO" ("Alert acknowledged for DAG '" +:+ py_str dag_id
                            +:+ "', Task '" +:+ py_str task_id +:+ "'") st1)
      end
    else (inr missing_dag_id_json, st).
Proof.
  intros Hjson. unfold acknowledge_post_try. run_py. rewrite Hjson. simpl.
  destruct (py_truthy _); simpl; [|done].
  unfold flag_key. by destruct (set_airflow_variable _ _ _ _) as [[e|j] st1].
Qed.

(** A body that is not a JSON object stops the handler before the check of
    [dag_id]: [get_json] or [req.get] raises, the answer is 500, nothing
    is sent upstream. *)
Lemma acknowledge_post_no_object (request : FlaskRequest) (st : state W) :
  (∀ items, get_json request ≠ inr (JObj items)) →
  ∃ e, acknowledge_post cfg request st =
         (inr {| body := jsonify (JObj [("status", JStr "error");
                                        ("message", JStr (exn_str e))]);
                 status := 500 |},
          with_log "ERROR" ("Error acknowledging alert: " +:+ exn_str e) st).
Proof.
  intros Hno.
  unfold acknowledge_post, acknowledge_post_try, acknowledge_post_except, try_except,
    mbind, py_bind, mret, py_ret, lift, logger_error.
  destruct (get_json request) as [e|j]; [by exists e|].
  destruct j as [| | | | | |items]; try (by eexists (no_attribute _ "get")).
  by destruct (Hno items).
Qed.

Lemma acknowledge_get_try_run (request : FlaskRequest) (st : state W) :
  acknowledge_get_try cfg request st =
    let dag_id := query_dag_id request in
    let task_id := args_get (args request) "task_id" (JStr "unknown") in
    if py_truthy dag_id then
      match set_airflow_variable cfg (flag_key (py_str dag_id)) "false" st with
      | (inl e, st1) => (inl e, st1)
      | (inr _, st1) =>
          (inr {| body := render_template_string ACK_PAGE_TEMPLATE
                            [("success", JBool true);
                             ("dag_id", dag_id);
                             ("task_id", task_id);
                             ("timestamp", JStr (clock (world st1)))];
                  status := 200 |},
           with_log "INFO" ("Alert acknowledged via GET for DAG '" +:+ py_str dag_id
                            +:+ "', Task '" +:+ py_str task_id +:+ "'") st1)
      end
    else (inr missing_dag_id_page, st).
Proof.
  unfold acknowledge_get_try, query_dag_id. run_py.
  destruct (py_truthy _); simpl; [|done].
  unfold flag_key. by destruct (set_airflow_variable _ _ _ _) as [[e|j] st1].
Qed.

(** C3, as the code has it. A POST to /api/acknowledge whose body lacks a
    [dag_id], whatever the body is, sends no request upstream and leaves
    the upstream world as it was; and when the body is a JSON object, the
    answer is 400 with the body [{"status": "error", "message": "dag_id is
    required"}] and the state is the one before the request. *)
Theorem acknowledge_post_missing_dag_id (request : FlaskRequest) (st : state W) :
  (∀ items, get_json request = inr (JObj items) → dict_lookup "dag_id" items = None) →
  sent (acknowledge_post cfg request st).2 = sent st
  ∧ world (acknowledge_post cfg request st).2 = world st
  ∧ ∀ items, get_json request = inr (JObj items) →
      acknowledge_post cfg request st =
        (inr {| body := jsonify (JObj [("status", JStr "error");
                                       ("message", JStr "dag_id is required")]);
                status := 400 |}, st).
Proof.
  intros Hlacks.
  assert (∀ items, get_json request = inr (JObj items) →
            acknowledge_post cfg request st = (inr missing_dag_id_json, st)) as Hobject.
  { intros items Hjson. unfold acknowledge_post, try_except.
    rewrite (acknowledge_post_try_object request items st Hjson).
    by rewrite (Hlacks items Hjson). }
  assert ((∀ items, get_json request ≠ inr (JObj items)) →
            sent (acknowledge_post cfg request st).2 = sent st
            ∧ world (acknowledge_post cfg request st).2 = world st) as Hother.
  { intros Hno. by destruct (acknowledge_post_no_object request st Hno) as [e ->]. }
  destruct (get_json request) as [e|j] eqn:Hjson.
  - destruct Hother as [Hsent Hworld]; [done|].
    split; [done|]. split; [done|]. intros items [=].
  - destruct j as [| | | | | |items];
      try (destruct Hother as [Hsent Hworld]; [done|];
           split; [done|]; split; [done|]; intros items [=]).
    rewrite (Hobject items eq_refl). split; [done|]. split; [done|]. by intros.
Qed.

(** C7. A POST to /api/acknowledge whose object has a [dag_id] that is not
    empty and whose write upstream succeeds is answered 200 with
    [status = "success"], the confirmation message, and [dag_id] and
    [task_id] as the caller gave them, [task_id] being ["unknown"] when the
    body has none. *)
Theorem acknowledge_post_success (request : FlaskRequest) (items : list (string * json))
    (dag_id j : json) (st st1 : state W) :
  get_json request = inr (JObj items) →
  dict_lookup "dag_id" items = Some dag_id →
  py_truthy dag_id = true →
  set_airflow_variable cfg (flag_key (py_str dag_id)) "false" st = (inr j, st1) →
  let task_id := match dict_lookup "task_id" items with
                 | Some t => t
                 | None => JStr "unknown"
                 end in
  (acknowledge_post cfg request st).1 =
    inr {| body := jsonify (JObj [
             ("status", JStr "success");
             ("message", JStr ("Alerts paused for DAG '" +:+ py_str dag_id
                +:+ "' based on acknowledgment from task '" +:+ py_str task_id +:+ "'."));
             ("dag_id", dag_id);
             ("task_id", task_id)]);
           status := 200 |}.
Proof.
  intros Hjson Hdag Htruthy Hset task_id.
  unfold acknowledge_post, try_except.
  rewrite (acknowledge_post_try_object request items st Hjson), Hdag. simpl.
  rewrite Htruthy, Hset. subst task_id. simpl.
  by destruct (dict_lookup "task_id" items).
Qed.

(** C10. An empty [dag_id] is handled as a missing one, by the POST and by
    the GET form of /api/acknowledge alike: the answer is the 400 response
    for a missing identifier and the state does not change, so no request
    goes upstream and no key is built from the empty identifier. *)
Theorem empty_dag_id_is_missing (posted queried : FlaskRequest)
    (items : list (string * json)) (st : state W) :
  get_json posted = inr (JObj items) →
  dict_lookup "dag_id" items = None ∨ dict_lookup "dag_id" items = Some (JStr EmptyString) →
  query_dag_id queried = JNull ∨ query_dag_id queried = JStr EmptyString →
  acknowledge_post cfg posted st =
    (inr {| body := jsonify (JObj [("status", JStr "error");
                                   ("message", JStr "dag_id is required")]);
            status := 400 |}, st)
  ∧ acknowledge_get cfg queried st =
    (inr {| body := render_template_string ACK_PAGE_TEMPLATE
                      [("success", JBool false);
                       ("error", JStr "Missing dag_id parameter")];
            status := 400 |}, st).
Proof.
  intros Hjson Hposted Hqueried. split.
  - unfold acknowledge_post, try_except.
    rewrite (acknowledge_post_try_object posted items st Hjson).
    by destruct Hposted as [-> | ->].
  - unfold acknowledge_get, try_except.
    rewrite acknowledge_get_try_run.
    by destruct Hqueried as [-> | ->].
Qed.

(** *** What reaches the upstream *)







(** *** The status handler *)

Lemma get_acknowledgment_status_try_run (dag_id : string) (st : state W) :
  get_acknowledgment_status_try cfg dag_id st =
    let (out, w1) := send (read_request cfg (flag_key dag_id)) (world st) in
    let st1 := after_call (read_request cfg (flag_key dag_id)) w1 st in
    match out with
    | inl msg => (inl (RequestException msg), st1)
    | inr r =>
        if status_code r =? 404 then (inr (status_json dag_id true), st1)
        else
          match call_result (inr r) with
          | inl e => (inl e, st1)
          | inr var_data =>
              match py_get var_data "value" (JStr "true") with
              | inl e => (inl e, st1)
              | inr value =>
                  match py_lower value with
                  | inl e => (inl e, st1)
                  | inr lowered => (inr (status_json dag_id (String.eqb lowered "true")), st1)
                  end
              end
          end
    end.
Proof.
  unfold get_acknowledgment_status_try, requests_get, requests_request, flag_key,
    read_request, call_result.
  run_py.
  destruct (send _ (world st)) as [[msg|r] w1]; simpl; [done|].
  destruct (status_code r =? 404); simpl; [done|].
  destruct (raise_for_status r); simpl; [done|].
  destruct (response_json r) as [e|var_data]; simpl; [done|].
  destruct (py_get var_data "value" (JStr "true")) as [e|value]; simpl; [done|].
  by destruct (py_lower value).
Qed.

(** C4. When the upstream answers the read of the flag with 404, the
    status handler answers 200 with [alerts_enabled = true] and
    [acknowledged = false]. *)
Theorem status_of_missing_flag (dag_id : string) (st : state W) (r : Response) (w1 : W) :
  send (read_request cfg (flag_key dag_id)) (world st) = (inr r, w1) →
  status_code r = 404 →
  (get_acknowledgment_status cfg dag_id st).1 =
    inr {| body := jsonify (JObj [("dag_id", JStr dag_id);
                                  ("alerts_enabled", JBool true);
                                  ("acknowledged", JBool false)]);
           status := 200 |}.
Proof.
  intros Hsend H404.
  unfold get_acknowledgment_status, try_except.
  rewrite get_acknowledgment_status_try_run, Hsend. simpl.
  by rewrite H404.
Qed.

(** C5. When the flag exists upstream and its value is the text [s] (or
    the answer has no value, which reads as ["true"]), the status handler
    answers 200 with [alerts_enabled] true exactly when [s] is ["true"] in
    some spelling of upper and lower case, and [acknowledged] the negation
    of [alerts_enabled]. *)
Theorem status_of_stored_flag (dag_id s : string) (st : state W) (r : Response) (w1 : W)
    (items : list (string * json)) :
  send (read_request cfg (flag_key dag_id)) (world st) = (inr r, w1) →
  status_code r ≠ 404 →
  ok r = true →
  content r = Decoded (JObj items) →
  from_option id (JStr "true") (dict_lookup "value" items) = JStr s →
  ∃ alerts_enabled : bool,
    (get_acknowledgment_status cfg dag_id st).1 =
      inr {| body := jsonify (JObj [("dag_id", JStr dag_id);
                                    ("alerts_enabled", JBool alerts_enabled);
                                    ("acknowledged", JBool (negb alerts_enabled))]);
             status := 200 |}
    ∧ (alerts_enabled = true ↔ true_ignoring_case s).
Proof.
  intros Hsend H404 Hok Hcontent Hvalue.
  exists (String.eqb (str_lower s) "true"). split; [|apply str_lower_true].
  unfold get_acknowledgment_status, try_except.
  rewrite get_acknowledgment_status_try_run, Hsend. simpl.
  apply Z.eqb_neq in H404. rewrite H404.
  rewrite (raise_for_status_ok r Hok). unfold response_json. rewrite Hcontent.
  simpl. rewrite Hvalue. done.
Qed.

(** A value that reads back decides the status. *)
Lemma status_reads_back (dag_id value : string) (st : state W) :
  reads_back cfg (flag_key dag_id) value (world st) →
  (get_acknowledgment_status cfg dag_id st).1 =
    inr (status_json dag_id (String.eqb (str_lower value) "true")).
Proof.
  intros (r & w' & items & Hsend & H404 & Hok & Hcontent & Hvalue).
  unfold get_acknowledgment_status, try_except.
  rewrite get_acknowledgment_status_try_run, Hsend. simpl.
  apply Z.eqb_neq in H404. rewrite H404.
  rewrite (raise_for_status_ok r Hok). unfold response_json. rewrite Hcontent.
  simpl. rewrite Hvalue. done.
Qed.

(** Over a store, a write that returned reads back. *)
Lemma set_airflow_variable_reads_back (key value : string) (j : json) (st st1 : state W) :
  keeps_writes cfg key →
  set_airflow_variable cfg key value st = (inr j, st1) →
  reads_back cfg key value (world st1).
Proof.
  intros Hstore. specialize (Hstore value (world st)).
  rewrite set_airflow_variable_run.
  destruct (send (update_request cfg key value) (world st)) as [o1 w1].
  destruct (send (create_request cfg key value) w1) as [o2 w2].
  destruct Hstore as [Hupdate Hcreate].
  destruct (not_found o1) eqn:Hnf; intros [= Hres <-]; simpl.
  - apply call_result_succeeded in Hres. eauto.
  - apply call_result_succeeded in Hres. eauto.
Qed.

(** *** Acknowledge, reset and status together *)

(** C2. Over an upstream that is a store for the flag of [dag_id]: when a
    POST to /api/acknowledge naming [dag_id] has been answered 200, the
    status handler, run in the state the acknowledge left, answers 200 with
    [alerts_enabled = false] and [acknowledged = true]. *)
Theorem acknowledge_then_status (dag_id : string) (request : FlaskRequest)
    (items : list (string * json)) (st st1 : state W) (answer : FlaskResponse) :
  keeps_writes cfg (flag_key dag_id) →
  get_json request = inr (JObj items) →
  dict_lookup "dag_id" items = Some (JStr dag_id) →
  acknowledge_post cfg request st = (inr answer, st1) →
  status answer = 200 →
  (get_acknowledgment_status cfg dag_id st1).1 =
    inr {| body := jsonify (JObj [("dag_id", JStr dag_id);
                                  ("alerts_enabled", JBool false);
                                  ("acknowledged", JBool true)]);
           status := 200 |}.
Proof.
  intros Hstore Hjson Hdag Hrun H200.
  unfold acknowledge_post, try_except in Hrun.
  rewrite (acknowledge_post_try_object request items st Hjson), Hdag in Hrun.
  simpl in Hrun.
  destruct (negb (String.eqb dag_id EmptyString)) eqn:Htruthy.
  - destruct (set_airflow_variable cfg (flag_key dag_id) "false" st) as [[e|j] st0] eqn:Hset.
    + unfold acknowledge_post_except in Hrun. run_py.
      injection Hrun as <- <-. discriminate H200.
    + injection Hrun as <- <-.
      apply (status_reads_back dag_id "false").
      apply (set_airflow_variable_reads_back _ _ j st st0 Hstore Hset).
  - injection Hrun as <- <-. discriminate H200.
Qed.

Lemma reset_acknowledgment_run (dag_id : string) (st : state W) :
  reset_acknowledgment cfg dag_id st =
    match set_airflow_variable cfg (flag_key dag_id) "true" st with
    | (inr _, st1) =>
        (inr {| body := jsonify (JObj [("success", JBool true);
                                       ("message", JStr ("Alerts re-enabled for DAG '"
                                                         +:+ dag_id +:+ "'"))]);
                status := 200 |},
         with_log "INFO" ("Alerts re-enabled for DAG '" +:+ dag_id +:+ "'") st1)
    | (inl e, st1) =>
        (inr {| body := jsonify (JObj [("success", JBool false);
                                       ("error", JStr (exn_str e))]);
                status := 500 |},
         with_log "ERROR" ("Error resetting acknowledgment: " +:+ exn_str e) st1)
    end.
Proof.
  unfold reset_acknowledgment, reset_acknowledgment_try, reset_acknowledgment_except,
    flag_key.
  run_py.
  by destruct (set_airflow_variable _ _ _ _) as [[e|j] st1].
Qed.

(** C6. A reset of [dag_id], here run in the state an acknowledge left,
    sends the update of the flag with the value ["true"], and its create
    with ["true"] when one follows.  When the write returns, the answer is
    200 with [success = true] and a message, and over a store for the flag
    the status handler then answers [alerts_enabled = true]; when the write
    raises [e], the answer is 500 with [success = false] and [str(e)]. *)
Theorem reset_after_acknowledge (dag_id : string) (request : FlaskRequest) (st : state W) :
  keeps_writes cfg (flag_key dag_id) →
  let st1 := (acknowledge_post cfg request st).2 in
  let '(answer, st2) := reset_acknowledgment cfg dag_id st1 in
  (sent st2 = sent st1 ++ [update_request cfg (flag_key dag_id) "true"] ∨
   sent st2 = sent st1 ++ [update_request cfg (flag_key dag_id) "true";
                           create_request cfg (flag_key dag_id) "true"])
  ∧ match (set_airflow_variable cfg (flag_key dag_id) "true" st1).1 with
    | inr _ =>
        answer = inr {| body := jsonify (JObj [("success", JBool true);
                                               ("message", JStr ("Alerts re-enabled for DAG '"
                                                                 +:+ dag_id +:+ "'"))]);
                        status := 200 |}
        ∧ (get_acknowledgment_status cfg dag_id st2).1 =
            inr {| body := jsonify (JObj [("dag_id", JStr dag_id);
                                          ("alerts_enabled", JBool true);
                                          ("acknowledged", JBool false)]);
                   status := 200 |}
    | inl e =>
        answer = inr {| body := jsonify (JObj [("success", JBool false);
                                               ("error", JStr (exn_str e))]);
                        status := 500 |}
    end.
Proof.
  intros Hstore st1. rewrite reset_acknowledgment_run.
  pose proof (set_airflow_variable_sent (flag_key dag_id) "true" st1) as [_ Hsent].
  destruct (set_airflow_variable cfg (flag_key dag_id) "true" st1) as [[e|j] st0] eqn:Hset;
    simpl in *.
  - done.
  - split; [done|]. split; [done|].
    apply (status_reads_back dag_id "true"). simpl.
    apply (set_airflow_variable_reads_back _ _ j st1 st0 Hstore Hset).
Qed.

(** *** Exceptions *)

(** The health check answers 200 in every state and sends nothing. *)
Lemma health_check_healthy (st : state W) :
  health_check st =
    (inr {| body := jsonify (JObj [("status", JStr "healthy");
                                   ("service", JStr "Airflow Alert Acknowledgment API")]);
            status := 200 |}, st).
Proof. reflexivity. Qed.

(** C8, as the code has it. An exception raised in a handler under its
    [try] is caught there: the handler logs it and answers 500 with a body
    that carries [str(e)] in the handler's own form, [{status, message}]
    for the POST acknowledge, the page with [success] false and [error]
    for the GET acknowledge, [{success, error}] for status and reset; and
    no handler ever raises. *)
Theorem exceptions_become_500 (route : Route) (request : FlaskRequest) (e : exn)
    (st st1 : state W) :
  guarded cfg route request st = (inl e, st1) →
  dispatch cfg route request st =
    (inr {| body := error_body route e; status := 500 |},
     with_log "ERROR" (error_log route e) st1)
  ∧ ∀ (route' : Route) (request' : FlaskRequest) (st' : state W),
      ∃ answer, (dispatch cfg route' request' st').1 = inr answer.
Proof.
  intros Hraise. split.
  - destruct route; simpl in *; try discriminate Hraise;
      unfold acknowledge_post, acknowledge_get, get_acknowledgment_status,
        reset_acknowledgment, try_except;
      by rewrite Hraise.
  - intros route' request' st'.
    destruct route'; simpl;
      unfold acknowledge_post, acknowledge_get, get_acknowledgment_status,
        reset_acknowledgment, try_except.
    + destruct (acknowledge_post_try cfg request' st') as [[e'|a] s']; simpl; eauto.
    + destruct (acknowledge_get_try cfg request' st') as [[e'|a] s']; simpl; eauto.
    + destruct (get_acknowledgment_status_try cfg dag_id st') as [[e'|a] s']; simpl; eauto.
    + destruct (reset_acknowledgment_try cfg dag_id st') as [[e'|a] s']; simpl; eauto.
    + eauto.
    + eauto.
Qed.
End Relay.

(** ** The reference upstream is a store *)

Lemma airflow_reads_back (key value : string) (w : airflow) :
  reachable w = true →
  variables w !! key = Some value →
  reads_back default_config key value w.
Proof.
  intros Hup Hstored.
  exists (answer 200 "OK" (read_request default_config key) (variable_json key value)), w,
    [("key", JStr key); ("value", JStr value)].
  split; [|done].
  unfold send, airflow_upstream, airflow_send. rewrite Hup. simpl.
  unfold read_request at 1. simpl.
  change (EmptyString +:+ key) with key. by rewrite Hstored.
Qed.

Lemma airflow_keeps_writes (key : string) :
  keeps_writes (W := airflow) default_config key.
Proof.
  intros value w.
  destruct (send (update_request default_config key value) w) as [o1 w1] eqn:Hupdate.
  destruct (send (create_request default_config key value) w1) as [o2 w2] eqn:Hcreate.
  unfold send, airflow_upstream, airflow_send in Hupdate, Hcreate.
  destruct (reachable w) eqn:Hup; simpl in Hupdate.
  - unfold update_request at 1 in Hupdate. simpl in Hupdate.
    change (EmptyString +:+ key) with key in Hupdate.
    destruct (variables w !! key) as [old|] eqn:Hold;
      injection Hupdate as <- <-.
    + split; [|done]. intros j _.
      apply airflow_reads_back; [done|]. simpl. apply lookup_insert_eq.
    + split.
      * intros j (r & [= <-] & Hok & _). discriminate Hok.
      * intros j _ Hs. rewrite Hup in Hcreate. simpl in Hcreate.
        injection Hcreate as <- <-.
        apply airflow_reads_back; [done|]. simpl. apply lookup_insert_eq.
  - injection Hupdate as <- <-. split.
    + intros j (r & [=] & _).
    + intros j [=].
Qed.

(** ** The properties on examples *)

(** The helper on a fresh Airflow: the update is answered 404, the create
    follows and stores the value. *)
Example set_airflow_variable_creates :
  let '(res, st) := set_airflow_variable default_config "k" "false" (initial fresh_airflow) in
  res = inr (JObj [("key", JStr "k"); ("value", JStr "false")])
  ∧ sent st = [update_request default_config "k" "false";
               create_request default_config "k" "false"]
  ∧ variables (world st) !! "k" = Some "false".
Proof. vm_compute. auto. Qed.

(** On an Airflow that has the variable, the update is the only call. *)
Example set_airflow_variable_updates :
  let '(res, st) := set_airflow_variable default_config "k" "false"
                      (initial (airflow_with "k" "true")) in
  res = inr (JObj [("key", JStr "k"); ("value", JStr "false")])
  ∧ sent st = [update_request default_config "k" "false"]
  ∧ variables (world st) !! "k" = Some "false".
Proof. vm_compute. auto. Qed.

(** Update answered 404, create answered 500: the helper raises the
    HTTPError of the create. *)
Example set_airflow_variable_create_fails :
  (set_airflow_variable default_config "k" "false"
     (initial [scripted_answer 404 "NOT FOUND" (Decoded JNull);
               scripted_answer 500 "INTERNAL SERVER ERROR" (Decoded JNull)])).1
  = inl (HTTPError
           "500 Server Error: INTERNAL SERVER ERROR for url: http://localhost:8080/api/v1/variables"
           {| status_code := 500; reason := "INTERNAL SERVER ERROR";
              url := "http://localhost:8080/api/v1/variables"; content := Decoded JNull |}).
Proof. vm_compute. reflexivity. Qed.

(** Update answered 403: no create is attempted. *)
Example set_airflow_variable_forbidden :
  let '(res, st) := set_airflow_variable default_config "k" "false"
                      (initial [scripted_answer 403 "FORBIDDEN" (Decoded JNull)]) in
  (∃ msg r, res = inl (HTTPError msg r) ∧ status_code r = 403)
  ∧ sent st = [update_request default_config "k" "false"].
Proof. vm_compute. eauto. Qed.

(** An answer that passes [raise_for_status] but is not JSON makes
    [response.json()] raise. *)
Example set_airflow_variable_malformed :
  (set_airflow_variable default_config "k" "false"
     (initial [scripted_answer 200 "OK"
                 (Malformed "Expecting value: line 1 column 1 (char 0)")])).1
  = inl (JSONDecodeError "Expecting value: line 1 column 1 (char 0)").
Proof. vm_compute. reflexivity. Qed.

Lemma acknowledge_post_missing_dag_id_witness :
  sent (acknowledge_post default_config (post_of (JObj [("task_id", JStr "load_step")]))
          (initial fresh_airflow)).2 = []
  ∧ world (acknowledge_post default_config (post_of (JObj [("task_id", JStr "load_step")]))
             (initial fresh_airflow)).2 = fresh_airflow
  ∧ ∀ items,
      get_json (post_of (JObj [("task_id", JStr "load_step")])) = inr (JObj items) →
      acknowledge_post default_config (post_of (JObj [("task_id", JStr "load_step")]))
        (initial fresh_airflow) =
        (inr {| body := jsonify (JObj [("status", JStr "error");
                                       ("message", JStr "dag_id is required")]);
                status := 400 |}, initial fresh_airflow).
Proof.
  apply (acknowledge_post_missing_dag_id default_config
           (post_of (JObj [("task_id", JStr "load_step")])) (initial fresh_airflow)).
  intros items [= <-]. reflexivity.
Defined.

(** C3, as the specification has it, fails.  The body [null] lacks a
    [dag_id]; [req.get] raises on it before the check of [dag_id], and the
    answer is 500 with the text of the AttributeError, not 400.  Nothing
    is sent upstream. *)
Lemma null_body_is_not_answered_400 :
  ∃ answer : FlaskResponse,
    body_dag_id (post_of JNull) = JNull
    ∧ (acknowledge_post default_config (post_of JNull) (initial fresh_airflow)).1 = inr answer
    ∧ status answer = 500
    ∧ status answer ≠ 400
    ∧ body answer = jsonify (JObj [("status", JStr "error");
                                   ("message", JStr "'NoneType' object has no attribute 'get'")])
    ∧ sent (acknowledge_post default_config (post_of JNull) (initial fresh_airflow)).2 = [].
Proof.
  eexists. split; [reflexivity|]. split; [vm_compute; reflexivity|].
  split; [reflexivity|]. split; [discriminate|]. split; reflexivity.
Qed.

Lemma acknowledge_post_success_witness :
  (acknowledge_post default_config (post_of (JObj [("dag_id", JStr "orders_pipeline")]))
     (initial fresh_airflow)).1 =
    inr {| body := jsonify (JObj [
             ("status", JStr "success");
             ("message", JStr "Alerts paused for DAG 'orders_pipeline' based on acknowledgment from task 'unknown'.");
             ("dag_id", JStr "orders_pipeline");
             ("task_id", JStr "unknown")]);
           status := 200 |}.
Proof.
  eapply (acknowledge_post_success default_config
            (post_of (JObj [("dag_id", JStr "orders_pipeline")]))
            [("dag_id", JStr "orders_pipeline")] (JStr "orders_pipeline")).
  - reflexivity.
  - reflexivity.
  - reflexivity.
  - vm_compute. reflexivity.
Defined.

Lemma empty_dag_id_is_missing_witness :
  acknowledge_post default_config (post_of (JObj [("dag_id", JStr EmptyString)]))
    (initial fresh_airflow) = (inr missing_dag_id_json, initial fresh_airflow)
  ∧ acknowledge_get default_config (query_of [("dag_id", EmptyString)])
    (initial fresh_airflow) = (inr missing_dag_id_page, initial fresh_airflow).
Proof.
  apply (empty_dag_id_is_missing default_config
           (post_of (JObj [("dag_id", JStr EmptyString)])) (query_of [("dag_id", EmptyString)])
           [("dag_id", JStr EmptyString)] (initial fresh_airflow)).
  - reflexivity.
  - right. reflexivity.
  - right. reflexivity.
Defined.




Lemma status_of_missing_flag_witness :
  (get_acknowledgment_status default_config "orders_pipeline" (initial fresh_airflow)).1 =
    inr {| body := jsonify (JObj [("dag_id", JStr "orders_pipeline");
                                  ("alerts_enabled", JBool true);
                                  ("acknowledged", JBool false)]);
           status := 200 |}.
Proof.
  eapply (status_of_missing_flag default_config "orders_pipeline" (initial fresh_airflow)).
  - vm_compute. reflexivity.
  - reflexivity.
Defined.

Lemma status_of_stored_flag_witness :
  ∃ alerts_enabled : bool,
    (get_acknowledgment_status default_config "orders_pipeline"
       (initial (airflow_with (flag_key "orders_pipeline") "False"))).1 =
      inr {| body := jsonify (JObj [("dag_id", JStr "orders_pipeline");
                                    ("alerts_enabled", JBool alerts_enabled);
                                    ("acknowledged", JBool (negb alerts_enabled))]);
             status := 200 |}
    ∧ (alerts_enabled = true ↔ true_ignoring_case "False").
Proof.
  eapply (status_of_stored_flag default_config "orders_pipeline" "False"
            (initial (airflow_with (flag_key "orders_pipeline") "False"))).
  - vm_compute. reflexivity.
  - vm_compute. discriminate.
  - reflexivity.
  - reflexivity.
  - reflexivity.
Defined.

Lemma acknowledge_then_status_witness :
  (get_acknowledgment_status default_config "orders_pipeline"
     (acknowledge_post default_config orders_load (initial fresh_airflow)).2).1 =
    inr {| body := jsonify (JObj [("dag_id", JStr "orders_pipeline");
                                  ("alerts_enabled", JBool false);
                                  ("acknowledged", JBool true)]);
           status := 200 |}.
Proof.
  eapply (acknowledge_then_status default_config "orders_pipeline" orders_load
            [("dag_id", JStr "orders_pipeline"); ("task_id", JStr "load_step")]
            (initial fresh_airflow)).
  - apply airflow_keeps_writes.
  - reflexivity.
  - reflexivity.
  - vm_compute. reflexivity.
  - reflexivity.
Defined.

Lemma reset_after_acknowledge_witness :
  let st1 := (acknowledge_post default_config orders_load (initial fresh_airflow)).2 in
  let '(answer, st2) := reset_acknowledgment default_config "orders_pipeline" st1 in
  (sent st2 = sent st1 ++ [update_request default_config (flag_key "orders_pipeline") "true"] ∨
   sent st2 = sent st1 ++ [update_request default_config (flag_key "orders_pipeline") "true";
                           create_request default_config (flag_key "orders_pipeline") "true"])
  ∧ match (set_airflow_variable default_config (flag_key "orders_pipeline") "true" st1).1 with
    | inr _ =>
        answer = inr {| body := jsonify (JObj [("success", JBool true);
                                               ("message", JStr ("Alerts re-enabled for DAG '"
                                                                 +:+ "orders_pipeline" +:+ "'"))]);
                        status := 200 |}
        ∧ (get_acknowledgment_status default_config "orders_pipeline" st2).1 =
            inr {| body := jsonify (JObj [("dag_id", JStr "orders_pipeline");
                                          ("alerts_enabled", JBool true);
                                          ("acknowledged", JBool false)]);
                   status := 200 |}
    | inl e =>
        answer = inr {| body := jsonify (JObj [("success", JBool false);
                                               ("error", JStr (exn_str e))]);
                        status := 500 |}
    end.
Proof.
  exact (reset_after_acknowledge default_config "orders_pipeline" orders_load
           (initial fresh_airflow) (airflow_keeps_writes _)).
Defined.

(** On the example the write of the reset returns, so the first branch is
    the one that applies. *)
Example orders_reset_returns :
  (reset_acknowledgment default_config "orders_pipeline"
     (acknowledge_post default_config orders_load (initial fresh_airflow)).2).1 =
    inr {| body := jsonify (JObj [("success", JBool true);
                                  ("message", JStr "Alerts re-enabled for DAG 'orders_pipeline'")]);
           status := 200 |}.
Proof. vm_compute. reflexivity. Qed.

Lemma exceptions_become_500_witness :
  dispatch default_config (get_acknowledgment_status_rule "orders_pipeline") orders_load
    (initial airflow_down) =
    (inr {| body := jsonify (JObj [("success", JBool false);
                                   ("error", JStr "Connection refused")]);
            status := 500 |},
     with_log "ERROR" "Error getting acknowledgment status: Connection refused"
       (after_call (read_request default_config (flag_key "orders_pipeline")) airflow_down
          (initial airflow_down)))
  ∧ ∀ (route' : Route) (request' : FlaskRequest) (st' : state airflow),
      ∃ answer, (dispatch default_config route' request' st').1 = inr answer.
Proof.
  apply (exceptions_become_500 default_config
           (get_acknowledgment_status_rule "orders_pipeline") orders_load
           (RequestException "Connection refused") (initial airflow_down)).
  vm_compute. reflexivity.
Defined.

(** C8, as the specification has it, fails.  With Airflow down, the POST
    acknowledge and the status handler both catch the same exception and
    both answer 500, the first with the keys [status] and [message], the
    second with the keys [success] and [error]. *)
Lemma error_bodies_differ_in_shape :
  ∃ a1 a2 : FlaskResponse,
    (dispatch default_config acknowledge_post_rule orders_load (initial airflow_down)).1 = inr a1
    ∧ (dispatch default_config (get_acknowledgment_status_rule "orders_pipeline") orders_load
         (initial airflow_down)).1 = inr a2
    ∧ (guarded default_config acknowledge_post_rule orders_load (initial airflow_down)).1
        = inl (RequestException "Connection refused")
    ∧ (guarded default_config (get_acknowledgment_status_rule "orders_pipeline") orders_load
         (initial airflow_down)).1 = inl (RequestException "Connection refused")
    ∧ status a1 = 500 ∧ status a2 = 500
    ∧ body_shape (body a1) = JsonShape ["status"; "message"]
    ∧ body_shape (body a2) = JsonShape ["success"; "error"]
    ∧ body_shape (body a1) ≠ body_shape (body a2).
Proof.
  eexists _, _.
  split; [vm_compute; reflexivity|].
  split; [vm_compute; reflexivity|].
  split; [vm_compute; reflexivity|].
  split; [vm_compute; reflexivity|].
  split; [reflexivity|]. split; [reflexivity|].
  split; [reflexivity|]. split; [reflexivity|].
  discriminate.
Qed.

(** ** Further properties of the handlers *)

Ltac step_py :=
  unfold mbind, py_bind, mret, py_ret, lift, logger_info, logger_error,
    datetime_now, try_except; simpl.

Section Coverage.
Context `{Builtins} {W : Type} `{Upstream W}.
Variable cfg : Config.

(** The POST acknowledge on an object, in one equation. *)
Lemma acknowledge_post_object (request : FlaskRequest) (items : list (string * json))
    (st : state W) :
  get_json request = inr (JObj items) →
  acknowledge_post cfg request st =
    let dag_id := from_option id JNull (dict_lookup "dag_id" items) in
    let task_id := from_option id (JStr "unknown") (dict_lookup "task_id" items) in
    if py_truthy dag_id then
      match set_airflow_variable cfg (flag_key (py_str dag_id)) "false" st with
      | (inl e, st1) =>
          (inr {| body := error_body acknowledge_post_rule e; status := 500 |},
           with_log "ERROR" (error_log acknowledge_post_rule e) st1)
      | (inr _, st1) =>
          (inr {| body := jsonify (JObj [
                    ("status", JStr "success");
                    ("message", JStr ("Alerts paused for DAG '" +:+ py_str dag_id
                       +:+ "' based on acknowledgment from task '" +:+ py_str task_id +:+ "'."));
                    ("dag_id", dag_id);
                    ("task_id", task_id)]);
                  status := 200 |},
           with_log "INFO" ("Alert acknowledged for DAG '" +:+ py_str dag_id
                            +:+ "', Task '" +:+ py_str task_id +:+ "'") st1)
      end
    else (inr missing_dag_id_json, st).
Proof.
  intros Hjson. unfold acknowledge_post, try_except.
  rewrite (acknowledge_post_try_object cfg request items st Hjson). simpl.
  destruct (py_truthy _); [|done].
  by destruct (set_airflow_variable _ _ _ _) as [[e|j] st1].
Qed.

(** The GET acknowledge, in one equation. *)
Lemma acknowledge_get_run (request : FlaskRequest) (st : state W) :
  acknowledge_get cfg request st =
    let dag_id := query_dag_id request in
    let task_id := args_get (args request) "task_id" (JStr "unknown") in
    if py_truthy dag_id then
      match set_airflow_variable cfg (flag_key (py_str dag_id)) "false" st with
      | (inl e, st1) =>
          (inr {| body := error_body acknowledge_get_rule e; status := 500 |},
           with_log "ERROR" (error_log acknowledge_get_rule e) st1)
      | (inr _, st1) =>
          (inr {| body := render_template_string ACK_PAGE_TEMPLATE
                            [("success", JBool true);
                             ("dag_id", dag_id);
                             ("task_id", task_id);
                             ("timestamp", JStr (clock (world st1)))];
                  status := 200 |},
           with_log "INFO" ("Alert acknowledged via GET for DAG '" +:+ py_str dag_id
                            +:+ "', Task '" +:+ py_str task_id +:+ "'") st1)
      end
    else (inr missing_dag_id_page, st).
Proof.
  unfold acknowledge_get, try_except.
  rewrite (acknowledge_get_try_run cfg request st). simpl.
  destruct (py_truthy _); [|done].
  by destruct (set_airflow_variable _ _ _ _) as [[e|j] st1].
Qed.

(** The status handler, in one equation. *)
Lemma get_acknowledgment_status_run (dag_id : string) (st : state W) :
  get_acknowledgment_status cfg dag_id st =
    let route := get_acknowledgment_status_rule dag_id in
    let (out, w1) := send (read_request cfg (flag_key dag_id)) (world st) in
    let st1 := after_call (read_request cfg (flag_key dag_id)) w1 st in
    let failed (e : exn) :=
      (inr {| body := error_body route e; status := 500 |},
       with_log "ERROR" (error_log route e) st1) in
    match out with
    | inl msg => failed (RequestException msg)
    | inr r =>
        if status_code r =? 404 then (inr (status_json dag_id true), st1)
        else
          match call_result (inr r) with
          | inl e => failed e
          | inr var_data =>
              match py_get var_data "value" (JStr "true") with
              | inl e => failed e
              | inr value =>
                  match py_lower value with
                  | inl e => failed e
                  | inr lowered => (inr (status_json dag_id (String.eqb lowered "true")), st1)
                  end
              end
          end
    end.
Proof.
  unfold get_acknowledgment_status, try_except.
  rewrite (get_acknowledgment_status_try_run cfg dag_id st).
  destruct (send _ (world st)) as [[msg|r] w1]; simpl; [done|].
  destruct (status_code r =? 404); [done|].
  destruct (raise_for_status r); [done|].
  destruct (response_json r) as [e|var_data]; [done|].
  destruct (py_get var_data "value" (JStr "true")) as [e|value]; [done|].
  by destruct (py_lower value).
Qed.

(** X1. Failures below HTTP in [set_airflow_variable].  When the update
    cannot be delivered the helper raises the RequestException and sends
    nothing else; when the update is answered 404 and the create cannot be
    delivered, it raises the RequestException of the create. *)
Theorem set_airflow_variable_network_failure (key value : string) (st : state W) :
  let '(o1, w1) := send (update_request cfg key value) (world st) in
  let '(o2, w2) := send (create_request cfg key value) w1 in
  let '(res, st') := set_airflow_variable cfg key value st in
  (∀ msg, o1 = inl msg →
     res = inl (RequestException msg) ∧
     sent st' = sent st ++ [update_request cfg key value] ∧ world st' = w1)
  ∧ (∀ msg, not_found o1 = true → o2 = inl msg →
     res = inl (RequestException msg) ∧
     sent st' = sent st ++ [update_request cfg key value; create_request cfg key value] ∧
     world st' = w2).
Proof.
  rewrite (set_airflow_variable_run cfg).
  destruct (send (update_request cfg key value) (world st)) as [o1 w1].
  destruct (send (create_request cfg key value) w1) as [o2 w2].
  destruct (not_found o1) eqn:Hnf; simpl; split.
  - intros msg ->. discriminate Hnf.
  - intros msg _ ->. simpl. by rewrite <- app_assoc.
  - by intros msg ->.
  - intros msg [=].
Qed.

(** X2. The status of the POST acknowledge.  It is 500 for a body that is
    not a JSON object; for an object it is 400 when [dag_id] is missing or
    falsy, 200 when the write returns and 500 when the write raises. *)
Theorem acknowledge_post_status (request : FlaskRequest) (st : state W) :
  ∃ answer, (acknowledge_post cfg request st).1 = inr answer ∧
    status answer =
      match get_json request with
      | inr (JObj items) =>
          let dag_id := from_option id JNull (dict_lookup "dag_id" items) in
          acknowledge_status dag_id
            (set_airflow_variable cfg (flag_key (py_str dag_id)) "false" st).1
      | _ => 500
      end.
Proof.
  destruct (get_json request) as [e|j] eqn:Hjson.
  - destruct (acknowledge_post_no_object cfg request st) as [e' ->]; [|by eexists].
    intros items. by rewrite Hjson.
  - destruct j as [| | | | | |items];
      try (destruct (acknowledge_post_no_object cfg request st) as [e' ->];
           [intros items; by rewrite Hjson | by eexists]).
    rewrite (acknowledge_post_object request items st Hjson). simpl.
    unfold acknowledge_status.
    destruct (py_truthy _); [|by eexists].
    destruct (set_airflow_variable _ _ _ _) as [[e|j] st1]; by eexists.
Qed.

(** X3. The status of the GET acknowledge.  It is 400 when the query has no
    [dag_id] or an empty one, 200 when the write returns and 500 when the
    write raises. *)
Theorem acknowledge_get_status (request : FlaskRequest) (st : state W) :
  ∃ answer, (acknowledge_get cfg request st).1 = inr answer ∧
    status answer =
      acknowledge_status (query_dag_id request)
        (set_airflow_variable cfg (flag_key (py_str (query_dag_id request))) "false" st).1.
Proof.
  rewrite acknowledge_get_run. simpl. unfold acknowledge_status.
  destruct (py_truthy _); [|by eexists].
  destruct (set_airflow_variable _ _ _ _) as [[e|j] st1]; by eexists.
Qed.

(** X4. The page of a GET acknowledge that went through.  With a [dag_id]
    that is not empty and a write that returns, the answer is 200 with the
    template rendered in a context of [success] true, the [dag_id] and
    [task_id] of the query ([task_id] being ["unknown"] when the query has
    none) and the clock read after the write; one INFO record is logged. *)
Theorem acknowledge_get_success (request : FlaskRequest) (dag_id : string) (j : json)
    (st st1 : state W) :
  query_dag_id request = JStr dag_id →
  dag_id ≠ EmptyString →
  set_airflow_variable cfg (flag_key dag_id) "false" st = (inr j, st1) →
  let task_id := args_get (args request) "task_id" (JStr "unknown") in
  acknowledge_get cfg request st =
    (inr {| body := render_template_string ACK_PAGE_TEMPLATE
                      [("success", JBool true);
                       ("dag_id", JStr dag_id);
                       ("task_id", task_id);
                       ("timestamp", JStr (clock (world st1)))];
            status := 200 |},
     with_log "INFO" ("Alert acknowledged via GET for DAG '" +:+ dag_id
                      +:+ "', Task '" +:+ py_str task_id +:+ "'") st1).
Proof.
  intros Hdag Hne Hset task_id.
  rewrite acknowledge_get_run, Hdag. simpl.
  apply String.eqb_neq in Hne. rewrite Hne. simpl.
  by rewrite Hset.
Qed.

(** X5. The two forms of acknowledge are one operation upstream.  A POST
    whose object names the same [dag_id] as the query of a GET sends the
    same requests, leaves the same world and answers the same status. *)
Theorem acknowledge_forms_agree (posted queried : FlaskRequest)
    (items : list (string * json)) (st : state W) :
  get_json posted = inr (JObj items) →
  from_option id JNull (dict_lookup "dag_id" items) = query_dag_id queried →
  let p := acknowledge_post cfg posted st in
  let g := acknowledge_get cfg queried st in
  world p.2 = world g.2 ∧ sent p.2 = sent g.2 ∧
  ∃ a b, p.1 = inr a ∧ g.1 = inr b ∧ status a = status b.
Proof.
  intros Hjson Hsame. simpl.
  rewrite (acknowledge_post_object posted items st Hjson), acknowledge_get_run.
  simpl. rewrite Hsame.
  destruct (py_truthy (query_dag_id queried)).
  - destruct (set_airflow_variable _ _ _ _) as [[e|j] st1]; simpl;
      (split; [done|]); (split; [done|]); by eexists _, _.
  - simpl. split; [done|]. split; [done|]. by eexists _, _.
Qed.

(** *** The status handler at its edges *)

Lemma raise_for_status_message (r : Response) :
  ok r = false → raise_for_status r = inl (HTTPError (http_error_message r) r).
Proof.
  unfold ok, raise_for_status, http_error_message. intros Hok.
  apply negb_false_iff, andb_true_iff in Hok as [Hlo Hhi].
  rewrite Hlo. simpl.
  destruct (status_code r <? 500) eqn:Hmid; [done|].
  assert ((500 <=? status_code r) = true) as -> by lia.
  by rewrite Hhi.
Qed.

(** X6. The status handler only reads.  Whatever the answer, it sends one
    request, the GET of the flag, and the world afterwards is the one that
    this read left. *)
Theorem status_sends_one_read (dag_id : string) (st : state W) :
  let st' := (get_acknowledgment_status cfg dag_id st).2 in
  sent st' = sent st ++ [read_request cfg (flag_key dag_id)]
  ∧ world st' = (send (read_request cfg (flag_key dag_id)) (world st)).2.
Proof.
  rewrite get_acknowledgment_status_run.
  destruct (send _ (world st)) as [[msg|r] w1]; simpl; [done|].
  destruct (status_code r =? 404); [done|].
  destruct (raise_for_status r); [done|].
  destruct (response_json r) as [e|var_data]; [done|].
  destruct (py_get var_data "value" (JStr "true")) as [e|value]; [done|].
  by destruct (py_lower value).
Qed.

(** X7. The status handler when the upstream cannot be reached.  A failure
    below HTTP with message [msg] is answered 500 with [success] false and
    [error = msg], and logged as an error. *)
Theorem status_upstream_unreachable (dag_id msg : string) (st : state W) (w1 : W) :
  send (read_request cfg (flag_key dag_id)) (world st) = (inl msg, w1) →
  get_acknowledgment_status cfg dag_id st =
    (inr {| body := jsonify (JObj [("success", JBool false); ("error", JStr msg)]);
            status := 500 |},
     with_log "ERROR" ("Error getting acknowledgment status: " +:+ msg)
       (after_call (read_request cfg (flag_key dag_id)) w1 st)).
Proof.
  intros Hsend. by rewrite get_acknowledgment_status_run, Hsend.
Qed.

(** X8. The status handler on an error status.  A read answered with a
    status from 400 to 599 other than 404 is answered 500, with the
    message of the HTTPError as [error]: the status, [Client Error] below
    500 and [Server Error] from 500 on, the reason and the URL. *)
Theorem status_upstream_error (dag_id : string) (st : state W) (r : Response) (w1 : W) :
  send (read_request cfg (flag_key dag_id)) (world st) = (inr r, w1) →
  status_code r ≠ 404 →
  ok r = false →
  (get_acknowledgment_status cfg dag_id st).1 =
    inr {| body := jsonify (JObj [
             ("success", JBool false);
             ("error", JStr (pretty (status_code r)
                +:+ (if status_code r <? 500 then " Client Error: " else " Server Error: ")
                +:+ reason r +:+ " for url: " +:+ url r))]);
           status := 500 |}.
Proof.
  intros Hsend H404 Hok.
  rewrite get_acknowledgment_status_run, Hsend. simpl.
  apply Z.eqb_neq in H404. rewrite H404.
  by rewrite (raise_for_status_message r Hok).
Qed.

(** X9. The status handler on a value that is not a text.  When the flag
    is answered as an object whose [value] is a number, a boolean, null, a
    list or an object, [.lower()] raises and the answer is 500 with
    ['T' object has no attribute 'lower'] as [error], [T] the type. *)
Theorem status_value_not_text (dag_id : string) (st : state W) (r : Response) (w1 : W)
    (items : list (string * json)) (v : json) :
  send (read_request cfg (flag_key dag_id)) (world st) = (inr r, w1) →
  status_code r ≠ 404 →
  ok r = true →
  content r = Decoded (JObj items) →
  dict_lookup "value" items = Some v →
  (∀ s, v ≠ JStr s) →
  (get_acknowledgment_status cfg dag_id st).1 =
    inr {| body := jsonify (JObj [
             ("success", JBool false);
             ("error", JStr ("'" +:+ py_type_name v
                             +:+ "' object has no attribute 'lower'"))]);
           status := 500 |}.
Proof.
  intros Hsend H404 Hok Hcontent Hvalue Htext.
  rewrite get_acknowledgment_status_run, Hsend. simpl.
  apply Z.eqb_neq in H404. rewrite H404.
  rewrite (raise_for_status_ok r Hok). unfold response_json. rewrite Hcontent.
  simpl. rewrite Hvalue. simpl.
  destruct v; try done. by destruct (Htext s).
Qed.

(** X10. When the status handler answers 200.  It answers 200 or 500, never
    anything else; 200 exactly when the read is answered 404, or with a
    status that is no error and a JSON object whose [value] is absent or a
    text; and every 200 has [acknowledged] the negation of
    [alerts_enabled]. *)
Theorem status_200_iff (dag_id : string) (st : state W) :
  ∃ answer, (get_acknowledgment_status cfg dag_id st).1 = inr answer
  ∧ (status answer = 200 ∨ status answer = 500)
  ∧ (status answer = 200 ↔
       tells_flag (send (read_request cfg (flag_key dag_id)) (world st)).1)
  ∧ (status answer = 200 → ∃ b,
       body answer = jsonify (JObj [("dag_id", JStr dag_id);
                                    ("alerts_enabled", JBool b);
                                    ("acknowledged", JBool (negb b))])).
Proof.
  rewrite get_acknowledgment_status_run. unfold tells_flag.
  destruct (send _ (world st)) as [[msg|r] w1]; simpl.
  { eexists. split; [done|]. simpl. split; [auto|]. split; [|done].
    split; [done|]. by intros (r & [=] & _). }
  destruct (status_code r =? 404) eqn:H404; simpl.
  { apply Z.eqb_eq in H404.
    eexists. split; [done|]. simpl. split; [auto|]. split; [|intros _; by exists true].
    split; [|done]. intros _. exists r. split; [done|]. by left. }
  apply Z.eqb_neq in H404.
  destruct (ok r) eqn:Hok.
  2:{ rewrite (raise_for_status_message r Hok).
      eexists. split; [done|]. simpl. split; [auto|]. split; [|done].
      split; [done|]. intros (r' & [= <-] & [H'|[H' _]]); [done|].
      by rewrite Hok in H'. }
  rewrite (raise_for_status_ok r Hok). unfold response_json.
  destruct (content r) as [msg|j] eqn:Hcontent; simpl.
  { eexists. split; [done|]. simpl. split; [auto|]. split; [|done].
    split; [done|]. intros (r' & [= <-] & [H'|(_ & items & H' & _)]); [done|].
    by rewrite Hcontent in H'. }
  destruct j as [| | | | | |items]; simpl;
    try (eexists; split; [done|]; simpl; split; [auto|]; split; [|done];
         split; [done|];
         intros (r' & [= <-] & [H'|(_ & items' & H' & _)]); [done|];
         by rewrite Hcontent in H').
  destruct (dict_lookup "value" items) as [v|] eqn:Hvalue; simpl.
  2:{ eexists. split; [done|]. simpl. split; [auto|]. split; [|intros _; by exists true].
      split; [|done]. intros _. exists r. split; [done|]. right.
      split; [done|]. exists items. auto. }
  destruct v; simpl;
    try (eexists; split; [done|]; simpl; split; [auto|]; split; [|done];
         split; [done|];
         intros (r' & [= <-] & [H'|(_ & items' & H' & [Hv|[s' Hv]])]); [done| |];
         rewrite Hcontent in H'; injection H' as <-; rewrite Hvalue in Hv; done).
  eexists. split; [done|]. simpl. split; [auto|]. split; [|intros _; by exists (String.eqb (str_lower s) "true")].
  split; [|done]. intros _. exists r. split; [done|]. right.
  split; [done|]. exists items. eauto.
Qed.

(** *** What every route does to the state *)

Lemma may_use_post (route : Route) :
  may_use route PATCH → may_use route POST.
Proof. destruct route; simpl; intros Hm; try done; by right. Qed.

(** One request through [dispatch]: an answer comes back, the requests
    sent and the log only grow, by what the route may send and by what the
    status calls for. *)
Lemma dispatch_effects (route : Route) (request : FlaskRequest) (st : state W) :
  ∃ answer calls records,
    (dispatch cfg route request st).1 = inr answer
    ∧ sent (dispatch cfg route request st).2 = sent st ++ calls
    ∧ logged (dispatch cfg route request st).2 = logged st ++ records
    ∧ route_calls cfg route calls
    ∧ log_matches (status answer) records.
Proof.
  assert (∀ (rt : Route) (key value : string) (answer : FlaskResponse) (level msg : string),
            may_use rt PATCH →
            log_matches (status answer) [(level, msg)] →
            let st1 := (set_airflow_variable cfg key value st).2 in
            ∃ answer' calls records,
              @inr exn FlaskResponse answer = inr answer'
              ∧ sent (with_log level msg st1) = sent st ++ calls
              ∧ logged (with_log level msg st1) = logged st ++ records
              ∧ route_calls cfg rt calls
              ∧ log_matches (status answer') records) as Hwrite.
  { intros rt key value answer level msg Huse Hlog st1.
    destruct (set_airflow_variable_sent cfg key value st) as [Hlogged Hsent].
    fold st1 in Hlogged, Hsent. simpl.
    exists answer. destruct Hsent as [Hsent|Hsent]; eexists _, [(level, msg)];
      rewrite Hsent, Hlogged;
      (split; [done|]); (split; [done|]); (split; [done|]); split; try done.
    - by apply calls_update.
    - by apply calls_update_create. }
  assert (∀ (rt : Route) (answer : FlaskResponse),
            status answer ≠ 500 →
            ∃ answer' calls records,
              @inr exn FlaskResponse answer = inr answer'
              ∧ sent st = sent st ++ calls
              ∧ logged st = logged st ++ records
              ∧ route_calls cfg rt calls
              ∧ log_matches (status answer') records) as Hquiet.
  { intros rt answer Hcode. exists answer, [], [].
    rewrite !app_nil_r. repeat (split; [done|]). split; [constructor|].
    unfold log_matches. apply Z.eqb_neq in Hcode. rewrite Hcode. by left. }
  destruct route; simpl.
  - (* POST acknowledge *)
    destruct (get_json request) as [e|j] eqn:Hjson.
    { destruct (acknowledge_post_no_object cfg request st) as [e' ->].
      { intros items. by rewrite Hjson. }
      simpl. eexists _, [], [_]. rewrite app_nil_r.
      repeat (split; [done|]). split; [constructor|]. by eexists. }
    destruct j as [| | | | | |items];
      try (destruct (acknowledge_post_no_object cfg request st) as [e' ->];
           [ intros items; by rewrite Hjson
           | simpl; eexists _, [], [_]; rewrite app_nil_r;
             repeat (split; [done|]); split; [constructor | by eexists] ]).
    rewrite (acknowledge_post_object request items st Hjson). simpl.
    destruct (py_truthy _); [|by apply Hquiet].
    pose proof (Hwrite acknowledge_post_rule
                  (flag_key (py_str (from_option id JNull (dict_lookup "dag_id" items))))
                  "false") as Hw.
    destruct (set_airflow_variable _ _ _ _) as [[e|j] st1]; simpl in *.
    + apply Hw; [by left | by eexists].
    + apply Hw; [by left | right; by eexists].
  - (* GET acknowledge *)
    rewrite acknowledge_get_run. simpl.
    destruct (py_truthy _); [|by apply Hquiet].
    pose proof (Hwrite acknowledge_get_rule
                  (flag_key (py_str (query_dag_id request))) "false") as Hw.
    destruct (set_airflow_variable _ _ _ _) as [[e|j] st1]; simpl in *.
    + apply Hw; [by left | by eexists].
    + apply Hw; [by left | right; by eexists].
  - (* status *)
    rewrite get_acknowledgment_status_run.
    assert (∀ e w1,
      ∃ answer calls records,
        @inr exn FlaskResponse
          {| body := error_body (get_acknowledgment_status_rule dag_id) e; status := 500 |}
          = inr answer
        ∧ sent (with_log "ERROR" (error_log (get_acknowledgment_status_rule dag_id) e)
                  (after_call (read_request cfg (flag_key dag_id)) w1 st)) = sent st ++ calls
        ∧ logged (with_log "ERROR" (error_log (get_acknowledgment_status_rule dag_id) e)
                    (after_call (read_request cfg (flag_key dag_id)) w1 st))
            = logged st ++ records
        ∧ route_calls cfg (get_acknowledgment_status_rule dag_id) calls
        ∧ log_matches (status answer) records) as Hfail.
    { intros e w1. eexists _, [_], [_]. simpl.
      repeat (split; [done|]). split; [constructor | by eexists]. }
    assert (∀ b w1,
      ∃ answer calls records,
        @inr exn FlaskResponse (status_json dag_id b) = inr answer
        ∧ sent (after_call (read_request cfg (flag_key dag_id)) w1 st) = sent st ++ calls
        ∧ logged (after_call (read_request cfg (flag_key dag_id)) w1 st)
            = logged st ++ records
        ∧ route_calls cfg (get_acknowledgment_status_rule dag_id) calls
        ∧ log_matches (status answer) records) as Hgood.
    { intros b w1. eexists _, [_], []. simpl. rewrite app_nil_r.
      repeat (split; [done|]). split; [constructor | by left]. }
    destruct (send _ (world st)) as [[msg|r] w1]; cbv beta iota zeta; [apply Hfail|].
    destruct (status_code r =? 404); [apply Hgood|].
    destruct (call_result (inr r)) as [e|var_data]; [apply Hfail|].
    destruct (py_get var_data "value" (JStr "true")) as [e|value]; [apply Hfail|].
    destruct (py_lower value); [apply Hfail | apply Hgood].
  - (* reset *)
    rewrite (reset_acknowledgment_run cfg).
    pose proof (Hwrite (reset_acknowledgment_rule dag_id) (flag_key dag_id) "true") as Hw.
    destruct (set_airflow_variable _ _ _ _) as [[e|j] st1]; simpl in *.
    + apply Hw; [by left | by eexists].
    + apply Hw; [by left | right; by eexists].
  - by apply Hquiet.
  - by apply Hquiet.
Qed.

Lemma route_calls_bound (route : Route) (calls : list HttpRequest) :
  route_calls cfg route calls →
  (length calls ≤ 2)%nat ∧ ∀ rq, rq ∈ calls → may_use route (method rq).
Proof.
  intros Hcalls. destruct Hcalls as [route|route key value Huse|route key value Huse|dag_id];
    simpl; (split; [lia|]); intros rq Hin.
  - by apply elem_of_nil in Hin.
  - apply list_elem_of_singleton in Hin as ->. done.
  - apply elem_of_cons in Hin as [->|Hin]; [done|].
    apply list_elem_of_singleton in Hin as ->. by apply may_use_post.
  - apply list_elem_of_singleton in Hin as ->. done.
Qed.

Lemma route_calls_configured (route : Route) (calls : list HttpRequest) :
  route_calls cfg route calls → ∀ rq, rq ∈ calls → configured cfg rq.
Proof.
  assert (∀ key value, configured cfg (update_request cfg key value)) as Hupdate.
  { intros key value. split; [done|]. by exists ("/" +:+ key). }
  assert (∀ key value, configured cfg (create_request cfg key value)) as Hcreate.
  { intros key value. split; [done|]. by exists EmptyString. }
  intros Hcalls. destruct Hcalls as [route|route key value Huse|route key value Huse|dag_id];
    intros rq Hin.
  - by apply elem_of_nil in Hin.
  - apply list_elem_of_singleton in Hin as ->. apply Hupdate.
  - apply elem_of_cons in Hin as [->|Hin]; [apply Hupdate|].
    apply list_elem_of_singleton in Hin as ->. apply Hcreate.
  - apply list_elem_of_singleton in Hin as ->.
    split; [done|]. by exists ("/" +:+ flag_key dag_id).
Qed.

(** X11. What one request may cost upstream.  Whatever the route and the
    request, the requests sent before stay as they are, at most two are
    added, and each has a method the route may use: PATCH or POST for the
    acknowledge and reset routes, GET for the status route, none for the
    health check and the index. *)
Theorem dispatch_sends_at_most_two (route : Route) (request : FlaskRequest) (st : state W) :
  ∃ calls,
    sent (dispatch cfg route request st).2 = sent st ++ calls
    ∧ (length calls ≤ 2)%nat
    ∧ ∀ rq, rq ∈ calls → may_use route (method rq).
Proof.
  destruct (dispatch_effects route request st)
    as (answer & calls & records & _ & Hsent & _ & Hcalls & _).
  exists calls. split; [done|]. exact (route_calls_bound route calls Hcalls).
Qed.

(** X12. Every request that goes upstream uses the configuration.  It
    carries the configured user name and password as its basic
    authentication, and its URL is the configured base URL followed by
    [/variables]. *)
Theorem dispatch_uses_configuration (route : Route) (request : FlaskRequest) (st : state W) :
  ∃ calls,
    sent (dispatch cfg route request st).2 = sent st ++ calls
    ∧ ∀ rq, rq ∈ calls →
        auth rq = {| username := AIRFLOW_USERNAME cfg; password := AIRFLOW_PASSWORD cfg |}
        ∧ ∃ rest, target rq = AIRFLOW_BASE_URL cfg +:+ "/variables" +:+ rest.
Proof.
  destruct (dispatch_effects route request st)
    as (answer & calls & records & _ & Hsent & _ & Hcalls & _).
  exists calls. split; [done|]. exact (route_calls_configured route calls Hcalls).
Qed.

(** X13. The log tells the errors.  One request adds at most one record to
    the log and changes none; it adds an ERROR record exactly when it is
    answered 500, and otherwise nothing or one INFO record. *)
Theorem dispatch_logs_errors (route : Route) (request : FlaskRequest) (st : state W) :
  ∃ answer records,
    (dispatch cfg route request st).1 = inr answer
    ∧ logged (dispatch cfg route request st).2 = logged st ++ records
    ∧ (status answer = 500 → ∃ msg, records = [("ERROR", msg)])
    ∧ (status answer ≠ 500 → records = [] ∨ ∃ msg, records = [("INFO", msg)]).
Proof.
  destruct (dispatch_effects route request st)
    as (answer & calls & records & Hanswer & _ & Hlogged & _ & Hlog).
  exists answer, records. split; [done|]. split; [done|].
  unfold log_matches in Hlog. split.
  - intros Hcode. by rewrite Hcode in Hlog.
  - intros Hcode. apply Z.eqb_neq in Hcode. by rewrite Hcode in Hlog.
Qed.

(** X14. A POST acknowledge whose body is not a JSON object.  When
    [get_json] raises, or gives null, a boolean, a number, a text or a
    list, the handler never reaches the check of [dag_id]: the answer is
    500, not 400, with [str(e)] as [message]; nothing is sent upstream and
    one error record is logged. *)
Theorem acknowledge_post_body_not_object (request : FlaskRequest) (st : state W) :
  (∀ items, get_json request ≠ inr (JObj items)) →
  ∃ e,
    acknowledge_post cfg request st =
      (inr {| body := jsonify (JObj [("status", JStr "error");
                                     ("message", JStr (exn_str e))]);
              status := 500 |},
       with_log "ERROR" ("Error acknowledging alert: " +:+ exn_str e) st)
    ∧ match get_json request with
      | inl raised => e = raised
      | inr j => e = AttributeError ("'" +:+ py_type_name j
                                     +:+ "' object has no attribute 'get'")
      end.
Proof.
  intros Hno.
  unfold acknowledge_post, acknowledge_post_try, acknowledge_post_except.
  step_py.
  destruct (get_json request) as [e|j]; [by exists e|].
  destruct j as [| | | | | |items]; try (by eexists (no_attribute _ "get")).
  by destruct (Hno items).
Qed.
End Coverage.

(** ** The configuration and the page *)

Lemma getenv_lookup (env : list (string * string)) (name d : string) :
  getenv env name d = default d ((list_to_map env : gmap string string) !! name).
Proof.
  induction env as [|[k v] env IH]; simpl; [done|].
  destruct (String.eqb_spec k name) as [->|Hne].
  - by rewrite lookup_insert_eq.
  - by rewrite lookup_insert_ne.
Qed.

(** X15. The configuration is read off the environment.  Each of the three
    settings is the value the environment gives its name, taken as it is,
    and the default of the code when the environment has no such name. *)
Theorem load_config_reads_environment (env : list (string * string)) :
  let environ : gmap string string := list_to_map env in
  load_config env =
    {| AIRFLOW_BASE_URL :=
         default "http://localhost:8080/api/v1" (environ !! "AIRFLOW_BASE_URL");
       AIRFLOW_USERNAME := default "airflow" (environ !! "AIRFLOW_USERNAME");
       AIRFLOW_PASSWORD := default "airflow" (environ !! "AIRFLOW_PASSWORD") |}.
Proof.
  intros environ. unfold load_config. by rewrite !getenv_lookup.
Qed.

Lemma chars_app (a b : string) : chars (a +:+ b) = chars a ++ chars b.
Proof.
  induction a as [|c a IH]; [done|].
  change (c :: chars (a +:+ b) = c :: chars a ++ chars b). by rewrite IH.
Qed.

Lemma escape_char_markup_free (c : ascii) : markup_free (escape_char c).
Proof.
  unfold escape_char, markup_free.
  destruct (Ascii.eqb_spec c "&") as [->|Hamp].
  { intros c' Hin. vm_compute in Hin. set_unfold. by destruct_or!; subst. }
  destruct (Ascii.eqb_spec c "<") as [->|Hlt].
  { intros c' Hin. vm_compute in Hin. set_unfold. by destruct_or!; subst. }
  destruct (Ascii.eqb_spec c ">") as [->|Hgt].
  { intros c' Hin. vm_compute in Hin. set_unfold. by destruct_or!; subst. }
  destruct (Ascii.eqb_spec c "'") as [->|Hquote].
  { intros c' Hin. vm_compute in Hin. set_unfold. by destruct_or!; subst. }
  destruct (Ascii.eqb_spec c (Ascii.ascii_of_nat 34)) as [->|Hdq].
  { intros c' Hin. vm_compute in Hin. set_unfold. by destruct_or!; subst. }
  intros c' Hin. simpl in Hin. apply list_elem_of_singleton in Hin as ->. done.
Qed.

(** What [{{ }}] prints can never be read as markup. *)
Lemma html_escape_markup_free (s : string) : markup_free (html_escape s).
Proof.
  induction s as [|c s IH]; intros c' Hin.
  - by apply elem_of_nil in Hin.
  - simpl in Hin. rewrite chars_app in Hin. apply elem_of_app in Hin as [Hin|Hin].
    + by apply (escape_char_markup_free c).
    + by apply IH.
Qed.

Section Page.
Context `{Builtins} {W : Type} `{Upstream W}.
Variable cfg : Config.

Ltac each_name Hin :=
  repeat (apply elem_of_cons in Hin as [->|Hin]; [by eexists|]);
  by apply elem_of_nil in Hin.

(** X16. The page never prints an unbound name.  In every answer of the GET
    acknowledge the context binds each name that rendering the template
    looks up: [success], and [dag_id], [task_id] and [timestamp] on the
    success branch or [error] on the failure branch. *)
Theorem acknowledge_get_page_is_bound (request : FlaskRequest) (st : state W) :
  ∃ answer context,
    (acknowledge_get cfg request st).1 = inr answer
    ∧ body answer = render_template_string ACK_PAGE_TEMPLATE context
    ∧ ∀ name, name ∈ flat_map (looked_up context) (template_source ACK_PAGE_TEMPLATE) →
        is_Some (dict_lookup name context).
Proof.
  rewrite (acknowledge_get_run cfg). simpl.
  destruct (py_truthy _).
  - destruct (set_airflow_variable _ _ _ _) as [[e|j] st1]; simpl;
      eexists _, _; (split; [done|]); (split; [done|]);
      intros name Hin; simpl in Hin; each_name Hin.
  - eexists _, _. split; [done|]. split; [done|].
    intros name Hin. simpl in Hin. each_name Hin.
Qed.

(** X17. The text of the success page.  After a GET acknowledge that went
    through, the page is the text of the template around its success
    branch with the [dag_id], the [task_id] and the time stamp put in, in
    this order, each escaped, so that no angle bracket or quote of theirs
    reaches the page. *)
Theorem acknowledge_get_success_page (request : FlaskRequest) (dag_id : string) (j : json)
    (st st1 : state W) :
  query_dag_id request = JStr dag_id →
  dag_id ≠ EmptyString →
  set_airflow_variable cfg (flag_key dag_id) "false" st = (inr j, st1) →
  let task_id := py_str (args_get (args request) "task_id" (JStr "unknown")) in
  ∃ answer context,
    (acknowledge_get cfg request st).1 = inr answer
    ∧ body answer = render_template_string ACK_PAGE_TEMPLATE context
    ∧ render ACK_PAGE_TEMPLATE context =
        page_head +:+ success_dag +:+ html_escape dag_id
        +:+ success_task +:+ html_escape task_id
        +:+ success_time +:+ html_escape (clock (world st1))
        +:+ success_end +:+ page_tail
    ∧ markup_free (html_escape dag_id)
    ∧ markup_free (html_escape task_id)
    ∧ markup_free (html_escape (clock (world st1))).
Proof.
  intros Hdag Hne Hset task_id.
  rewrite (acknowledge_get_run cfg), Hdag. simpl.
  apply String.eqb_neq in Hne. rewrite Hne. simpl. rewrite Hset. simpl.
  eexists _, _. split; [done|]. split; [done|].
  split; [reflexivity|].
  split; [apply html_escape_markup_free|].
  split; apply html_escape_markup_free.
Qed.

(** X18. The text of the failure page.  Every answer of the GET acknowledge
    other than 200 is the text of the template around its failure branch
    with the escaped error message put in, and nothing of the request:
    the message is [Missing dag_id parameter] with a 400 and [str(e)] with
    a 500. *)
Theorem acknowledge_get_failure_page (request : FlaskRequest) (st : state W) :
  ∃ answer,
    (acknowledge_get cfg request st).1 = inr answer
    ∧ (status answer ≠ 200 →
       ∃ context msg,
         body answer = render_template_string ACK_PAGE_TEMPLATE context
         ∧ dict_lookup "error" context = Some (JStr msg)
         ∧ render ACK_PAGE_TEMPLATE context =
             page_head +:+ failure_error +:+ html_escape msg
             +:+ failure_end +:+ page_tail
         ∧ markup_free (html_escape msg)
         ∧ (status answer = 400 → msg = "Missing dag_id parameter")
         ∧ (status answer = 500 →
            ∃ e, (set_airflow_variable cfg (flag_key (py_str (query_dag_id request)))
                    "false" st).1 = inl e ∧ msg = exn_str e)).
Proof.
  rewrite (acknowledge_get_run cfg). simpl.
  destruct (py_truthy _).
  - destruct (set_airflow_variable _ _ _ _) as [[e|j] st1]; simpl.
    + eexists. split; [done|]. intros _. eexists _, _.
      split; [done|]. split; [done|]. split; [reflexivity|].
      split; [apply html_escape_markup_free|]. split; [done|]. by eexists.
    + eexists. split; [done|]. done.
  - eexists. split; [done|]. intros _. eexists _, _.
    split; [done|]. split; [done|]. split; [reflexivity|].
    split; [apply html_escape_markup_free|]. split; [done|]. done.
Qed.
End Page.

(** ** The further properties on examples *)

Lemma acknowledge_get_success_witness :
  acknowledge_get default_config orders_load (initial fresh_airflow) =
    (inr {| body := render_template_string ACK_PAGE_TEMPLATE
                      [("success", JBool true);
                       ("dag_id", JStr "orders_pipeline");
                       ("task_id", JStr "load_step");
                       ("timestamp", JStr "2024-01-01 00:00:00")];
            status := 200 |},
     with_log "INFO" "Alert acknowledged via GET for DAG 'orders_pipeline', Task 'load_step'"
       (set_airflow_variable default_config (flag_key "orders_pipeline") "false"
          (initial fresh_airflow)).2).
Proof.
  assert (set_airflow_variable default_config (flag_key "orders_pipeline") "false"
            (initial fresh_airflow) =
          (inr (variable_json "twilio_alert_enabled_orders_pipeline" "false"),
           (set_airflow_variable default_config (flag_key "orders_pipeline") "false"
              (initial fresh_airflow)).2)) as Hset.
  { vm_compute. reflexivity. }
  exact (acknowledge_get_success default_config orders_load "orders_pipeline" _
           (initial fresh_airflow) _ eq_refl ltac:(discriminate) Hset).
Defined.

Lemma acknowledge_forms_agree_witness :
  let p := acknowledge_post default_config orders_load (initial fresh_airflow) in
  let g := acknowledge_get default_config orders_export (initial fresh_airflow) in
  world p.2 = world g.2 ∧ sent p.2 = sent g.2 ∧
  ∃ a b, p.1 = inr a ∧ g.1 = inr b ∧ status a = status b.
Proof.
  apply (acknowledge_forms_agree default_config orders_load orders_export
           [("dag_id", JStr "orders_pipeline"); ("task_id", JStr "load_step")]
           (initial fresh_airflow)); reflexivity.
Defined.

Lemma status_upstream_unreachable_witness :
  get_acknowledgment_status default_config "orders_pipeline" (initial airflow_down) =
    (inr {| body := jsonify (JObj [("success", JBool false);
                                   ("error", JStr "Connection refused")]);
            status := 500 |},
     with_log "ERROR" ("Error getting acknowledgment status: " +:+ "Connection refused")
       (after_call (read_request default_config (flag_key "orders_pipeline")) airflow_down
          (initial airflow_down))).
Proof.
  apply (status_upstream_unreachable default_config "orders_pipeline" "Connection refused"
           (initial airflow_down) airflow_down).
  reflexivity.
Defined.

Lemma status_upstream_error_witness :
  (get_acknowledgment_status default_config "orders_pipeline" (initial [inr unavailable])).1 =
    inr {| body := jsonify (JObj [
             ("success", JBool false);
             ("error", JStr (pretty 503 +:+ " Server Error: " +:+ "SERVICE UNAVAILABLE"
                             +:+ " for url: " +:+ "http://localhost:8080/api/v1/variables"))]);
           status := 500 |}.
Proof.
  apply (status_upstream_error default_config "orders_pipeline" (initial [inr unavailable])
           unavailable []).
  - reflexivity.
  - discriminate.
  - reflexivity.
Defined.

Lemma status_value_not_text_witness :
  (get_acknowledgment_status default_config "orders_pipeline" (initial [inr numeric_flag])).1 =
    inr {| body := jsonify (JObj [
             ("success", JBool false);
             ("error", JStr ("'" +:+ "int" +:+ "' object has no attribute 'lower'"))]);
           status := 500 |}.
Proof.
  apply (status_value_not_text default_config "orders_pipeline" (initial [inr numeric_flag])
           numeric_flag []
           [("key", JStr "twilio_alert_enabled_orders_pipeline"); ("value", JInt 0)]
           (JInt 0)).
  - reflexivity.
  - discriminate.
  - reflexivity.
  - reflexivity.
  - reflexivity.
  - intros s. discriminate.
Defined.

Lemma acknowledge_post_body_not_object_witness :
  ∃ e,
    acknowledge_post default_config (post_of (JArr [])) (initial fresh_airflow) =
      (inr {| body := jsonify (JObj [("status", JStr "error");
                                     ("message", JStr (exn_str e))]);
              status := 500 |},
       with_log "ERROR" ("Error acknowledging alert: " +:+ exn_str e) (initial fresh_airflow))
    ∧ e = AttributeError ("'" +:+ "list" +:+ "' object has no attribute 'get'").
Proof.
  apply (acknowledge_post_body_not_object default_config (post_of (JArr []))
           (initial fresh_airflow)).
  intros items. discriminate.
Defined.

Lemma acknowledge_get_success_page_witness :
  ∃ answer context,
    (acknowledge_get default_config orders_load (initial fresh_airflow)).1 = inr answer
    ∧ body answer = render_template_string ACK_PAGE_TEMPLATE context
    ∧ render ACK_PAGE_TEMPLATE context =
        page_head +:+ success_dag +:+ html_escape "orders_pipeline"
        +:+ success_task +:+ html_escape "load_step"
        +:+ success_time +:+ html_escape "2024-01-01 00:00:00"
        +:+ success_end +:+ page_tail
    ∧ markup_free (html_escape "orders_pipeline")
    ∧ markup_free (html_escape "load_step")
    ∧ markup_free (html_escape "2024-01-01 00:00:00").
Proof.
  assert (set_airflow_variable default_config (flag_key "orders_pipeline") "false"
            (initial fresh_airflow) =
          (inr (variable_json "twilio_alert_enabled_orders_pipeline" "false"),
           (set_airflow_variable default_config (flag_key "orders_pipeline") "false"
              (initial fresh_airflow)).2)) as Hset.
  { vm_compute. reflexivity. }
  exact (acknowledge_get_success_page default_config orders_load "orders_pipeline" _
           (initial fresh_airflow) _ eq_refl ltac:(discriminate) Hset).
Defined.

(** A [dag_id] written as markup comes out as text. *)
Example escaped_dag_id :
  html_escape "<b>orders</b>" = "&lt;b&gt;orders&lt;/b&gt;".
Proof. reflexivity. Qed.
